(** * DisplayManagerService (libs/vr/libvrflinger/display_manager_service.cpp)

    A shallow embedding of the display-manager endpoint of VrFlinger and the
    properties of its admission policy, message handlers and notification
    protocol.

    Layout:
    - [Errno], [Poll]: constants of the system headers the code uses;
    - data model: statuses, channels, surfaces, the display service, the
      transport endpoint;
    - [Platform]: the collaborators that live outside this translation unit;
    - the handler monad and the methods of [DisplayManager] and
      [DisplayManagerService], one definition per C++ method;
    - the event loop of the transport (channel open, close, message, surface
      change) and its reachable states;
    - the theorems. *)

From stdpp Require Import gmap strings list.
From Stdlib Require Import ZArith.

Local Open Scope Z_scope.

(** ** Constants of the system headers *)

Module Errno.
Definition EPERM : Z := 1.
Definition ENOENT : Z := 2.
Definition EINVAL : Z := 22.
End Errno.
Import Errno.

Module Poll.
Definition POLLIN : Z := 1.
Definition POLLOUT : Z := 4.
End Poll.
Import Poll.

(** private/android_filesystem_config.h *)
Definition AID_ROOT : Z := 0.

(** The property names of the anonymous namespace (lines 26-28). *)
Definition kDvrLensMetricsProperty : string := "ro.dvr.lens_metrics".
Definition kDvrDeviceMetricsProperty : string := "ro.dvr.device_metrics".
Definition kDvrDeviceConfigProperty : string := "ro.dvr.device_configuration".

(** ** Data model *)

(** [pdx::Status<T>]: a value or an error code. *)
Inductive Status (A : Type) : Type :=
| OkStatus (a : A)
| ErrorStatus (e : Z).
Arguments OkStatus {A} a.
Arguments ErrorStatus {A} e.

Definition is_ok {A} (st : Status A) : bool :=
  match st with OkStatus _ => true | ErrorStatus _ => false end.

(** What [ALOGE] receives: the format string and its arguments. *)
Inductive LogArg : Type :=
| ArgInt (n : Z)
| ArgErrorMessage (e : Z).

Record LogLine : Type := ALOGE { log_format : string; log_args : list LogArg }.

(** A [DisplayManager] object.  [this_] is the address [std::make_shared] gave
    it: two [shared_ptr]s are equal when they point to the same object, and
    [channel_id_] is the member the constructor stores. *)
Record DisplayManager : Type := mkDisplayManager {
  this_ : Z;
  channel_id_ : Z
}.

Global Instance DisplayManager_eq_dec : EqDecision DisplayManager.
Proof. solve_decision. Defined.

(** [display::ConfigFileType], an [enum class] over [uint32_t] whose
    enumerators are numbered from zero; the value comes off the wire, so any
    number can arrive. *)
Module ConfigFileType.
Definition kLensMetrics : Z := 0.
Definition kDeviceMetrics : Z := 1.
Definition kDeviceConfiguration : Z := 2.
End ConfigFileType.

Inductive SurfaceType : Type := Application | Direct.

Global Instance SurfaceType_eq_dec : EqDecision SurfaceType.
Proof. solve_decision. Defined.

(** A consumer queue of an application surface; only [id()] is read here. *)
Record ConsumerQueue : Type := mkQueue { id : Z }.

(** Modelled from the spec: the display surface of display_surface.h, which is
    not part of this translation unit.  The fields are the accessors that
    [OnGetSurfaceState] and [OnGetSurfaceQueue] call. *)
Record DisplaySurface : Type := mkSurface {
  surface_id : Z;
  process_id : Z;
  user_id : Z;
  attributes : list (Z * Z);
  update_flags : Z;
  surface_type : SurfaceType;
  consumer_queues_ : list ConsumerQueue
}.

Definition GetQueueIds (surface : DisplaySurface) : list Z :=
  id <$> consumer_queues_ surface.

(** [ClearUpdate]: resets the update flags to [SurfaceUpdateFlags::None]. *)
Definition ClearUpdate (surface : DisplaySurface) : DisplaySurface :=
  {| surface_id := surface_id surface;
     process_id := process_id surface;
     user_id := user_id surface;
     attributes := attributes surface;
     update_flags := 0;
     surface_type := surface_type surface;
     consumer_queues_ := consumer_queues_ surface |}.

Definition GetQueue (surface : DisplaySurface) (queue_id : Z)
  : option ConsumerQueue :=
  List.find (fun q => bool_decide (id q = queue_id)) (consumer_queues_ surface).

(** [display::SurfaceState], the value sent to the client per surface. *)
Record SurfaceState : Type := mkSurfaceState {
  st_surface_id : Z;
  st_process_id : Z;
  st_user_id : Z;
  st_surface_attributes : list (Z * Z);
  st_update_flags : Z;
  st_queue_ids : list Z
}.

Definition NamedBuffer : Type := (Z * Z)%type.
Definition LocalChannelHandle : Type := Z.
Definition BorrowedNativeBufferHandle : Type := Z.

(** Modelled from the spec: the display service of display_service.h.  Its
    surfaces are kept in enumeration order; named buffers are a table of
    their own. *)
Record DisplayService : Type := mkDisplayService {
  surfaces_ : list DisplaySurface;
  named_buffers_ : gmap string NamedBuffer
}.

(** Modelled from the spec: [ForEachApplicationSurface(visit_fn)].  The
    visitor receives each surface of the given type in enumeration order; it
    may change the surface (the C++ visitor gets a pointer to it) and threads
    the state it captured by reference. *)
Fixpoint ForEachDisplaySurface {A : Type} (ty : SurfaceType)
    (action : DisplaySurface -> A -> DisplaySurface * A)
    (surfaces : list DisplaySurface) (acc : A) : list DisplaySurface * A :=
  match surfaces with
  | [] => ([], acc)
  | surface :: rest =>
      if decide (surface_type surface = ty) then
        let '(surface', acc') := action surface acc in
        let '(rest', acc'') := ForEachDisplaySurface ty action rest acc' in
        (surface' :: rest', acc'')
      else
        let '(rest', acc') := ForEachDisplaySurface ty action rest acc in
        (surface :: rest', acc')
  end.

(** Modelled from the spec: [GetSurfaceById(id) -> optional<Surface>]. *)
Definition GetDisplaySurface (ds : DisplayService) (sid : Z)
  : option DisplaySurface :=
  List.find (fun s => bool_decide (surface_id s = sid)) (surfaces_ ds).

(** Modelled from the spec: the transport endpoint,
    [ModifyReadiness(channel_handle, clear_mask, set_mask) -> Status].  The
    endpoint keeps, per open channel, the readiness bits that a poll on the
    channel reports and the channel object the service returned when the
    channel was opened. *)
Record ChannelData : Type := mkChannelData {
  event_bits : Z;
  channel_state : option DisplayManager
}.

Record Endpoint : Type := mkEndpoint { channels_ : gmap Z ChannelData }.

Definition ModifyEvents (clear_mask set_mask bits : Z) : Z :=
  Z.lor (Z.land bits (Z.lnot clear_mask)) set_mask.

Definition ModifyChannelEvents (channel_id clear_mask set_mask : Z)
    (ep : Endpoint) : Status unit * Endpoint :=
  match channels_ ep !! channel_id with
  | Some data =>
      (OkStatus tt,
       mkEndpoint
         (<[channel_id :=
              mkChannelData (ModifyEvents clear_mask set_mask (event_bits data))
                            (channel_state data)]> (channels_ ep)))
  | None => (ErrorStatus EINVAL, ep)
  end.

(** The state of the service object: the live-session slot, the display
    service it shares and the endpoint of its base class. *)
Record DisplayManagerService : Type := mkService {
  display_manager_ : option DisplayManager;
  display_service_ : DisplayService;
  endpoint_ : Endpoint
}.

(** The requests of [DisplayManagerProtocol], with their decoded arguments. *)
Inductive Request : Type :=
| GetSurfaceState
| GetSurfaceQueue (surface_id queue_id : Z)
| SetupNamedBuffer (name : string) (size usage : Z)
| GetConfigurationData (config_type : Z)
| OtherOp (op : Z).

(** [pdx::Message], as far as this file reads it. *)
Record Message : Type := mkMessage {
  GetEffectiveUserId : Z;
  GetChannelId : Z;
  GetChannel : option DisplayManager;
  GetRequest : Request
}.

(** What [HandleMessage] sends back through the message. *)
Inductive Reply : Type :=
| ReplySurfaceState (r : Status (list SurfaceState))
| ReplySurfaceQueue (r : Status LocalChannelHandle)
| ReplyNamedBuffer (r : Status BorrowedNativeBufferHandle)
| ReplyConfigurationData (r : Status string)
| DefaultHandleMessage (op : Z).

(** ** Collaborators outside this translation unit *)

Class Platform : Type := {
  (** private/dvr/trusted_uids.h *)
  IsTrustedUid : Z -> bool;
  (** android-base/properties.h: [GetProperty(key, default_value)] *)
  GetProperty : string -> string -> string;
  (** android-base/file.h: success, the string read, and [errno] afterwards *)
  ReadFileToString : string -> bool * string * Z;
  (** [ConsumerQueue::CreateConsumerQueueHandle] *)
  CreateConsumerQueueHandle : ConsumerQueue -> Status LocalChannelHandle;
  (** [DisplayService::SetupNamedBuffer], acting on the named-buffer table *)
  DisplayService_SetupNamedBuffer :
    string -> Z -> Z -> gmap string NamedBuffer ->
    Status BorrowedNativeBufferHandle * gmap string NamedBuffer
}.

(** ** The handler monad

    A method runs on the service state, may write log lines, and either
    returns or dereferences a null pointer. *)

Inductive Outcome (A : Type) : Type :=
| Returned (a : A) (s : DisplayManagerService) (log : list LogLine)
| NullDereference.
Arguments Returned {A} a s log.
Arguments NullDereference {A}.

Definition Handler (A : Type) : Type := DisplayManagerService -> Outcome A.

Definition ret {A} (a : A) : Handler A := fun s => Returned a s [].

Definition bind {A B} (m : Handler A) (k : A -> Handler B) : Handler B :=
  fun s =>
    match m s with
    | Returned a s' log =>
        match k a s' with
        | Returned b s'' log' => Returned b s'' (log ++ log')
        | NullDereference => NullDereference
        end
    | NullDereference => NullDereference
    end.

Notation "x <- m ;; k" := (bind m (fun x => k))
  (at level 100, m at next level, right associativity).
Notation "m ;;; k" := (bind m (fun _ => k))
  (at level 100, right associativity).

Definition get : Handler DisplayManagerService := fun s => Returned s s [].
Definition log_error (l : LogLine) : Handler unit := fun s => Returned tt s [l].
Definition null_dereference {A} : Handler A := fun _ => NullDereference.

(** [ALOGE_IF(cond, ...)] *)
Definition ALOGE_IF (cond : bool) (l : LogLine) : Handler unit :=
  if cond then log_error l else ret tt.

(** [p->...] on a [shared_ptr]: defined only when [p] is not null. *)
Definition deref {A} (p : option A) : Handler A :=
  match p with
  | Some a => ret a
  | None => null_dereference
  end.

Definition set_display_manager (dm : option DisplayManager) : Handler unit :=
  fun s => Returned tt (mkService dm (display_service_ s) (endpoint_ s)) [].

Definition Service_ModifyChannelEvents (channel_id clear_mask set_mask : Z)
  : Handler (Status unit) :=
  fun s =>
    let '(status, ep) :=
      ModifyChannelEvents channel_id clear_mask set_mask (endpoint_ s) in
    Returned status (mkService (display_manager_ s) (display_service_ s) ep) [].

Definition DisplayService_ForEachDisplaySurface {A} (ty : SurfaceType)
    (action : DisplaySurface -> A -> DisplaySurface * A) (acc : A)
  : Handler A :=
  fun s =>
    let ds := display_service_ s in
    let '(surfaces', acc') := ForEachDisplaySurface ty action (surfaces_ ds) acc in
    Returned acc'
      (mkService (display_manager_ s)
                 (mkDisplayService surfaces' (named_buffers_ ds))
                 (endpoint_ s)) [].

(** ** The methods *)

Section Methods.
Context {platform : Platform}.

(** Lines 35-42. *)
Definition SetNotificationsPending (self : DisplayManager) (pending : bool)
  : Handler unit :=
  status <- Service_ModifyChannelEvents (channel_id_ self)
              (if pending then 0 else POLLIN)
              (if pending then POLLIN else 0) ;;
  ALOGE_IF (negb (is_ok status))
    (ALOGE
       "DisplayManager::SetNotificationPending: Failed to modify channel events: %s"
       match status with
       | ErrorStatus e => [ArgErrorMessage e]
       | OkStatus _ => []
       end).

(** The test of lines 56 and 152. *)
Definition trusted_user (user_id : Z) : bool :=
  bool_decide (user_id = AID_ROOT) || IsTrustedUid user_id.

(** Lines 53-68.  [new_object] is the address [std::make_shared] returns
    when it is reached.  The result is the returned pointer and the error
    [RemoteMethodError] replied with, if any. *)
Definition OnChannelOpen (new_object : Z) (message : Message)
  : Handler (option DisplayManager * option Z) :=
  let user_id := GetEffectiveUserId message in
  let trusted := trusted_user user_id in
  s <- get ;;
  if bool_decide (is_Some (display_manager_ s)) || negb trusted then
    ret (None, Some EPERM)
  else
    let dm := mkDisplayManager new_object (GetChannelId message) in
    set_display_manager (Some dm) ;;;
    ret (Some dm, None).

(** Lines 70-75. *)
Definition OnChannelClose (message : Message)
    (channel : option DisplayManager) : Handler unit :=
  s <- get ;;
  if decide (display_manager_ s = channel) then set_display_manager None
  else ret tt.

(** The visitor of lines 112-117. *)
Definition snapshot (surface : DisplaySurface) : SurfaceState :=
  {| st_surface_id := surface_id surface;
     st_process_id := process_id surface;
     st_user_id := user_id surface;
     st_surface_attributes := attributes surface;
     st_update_flags := update_flags surface;
     st_queue_ids := GetQueueIds surface |}.

Definition visit_surface (surface : DisplaySurface)
    (items : list SurfaceState) : DisplaySurface * list SurfaceState :=
  (ClearUpdate surface, items ++ [snapshot surface]).

(** Lines 106-123. *)
Definition OnGetSurfaceState (message : Message)
  : Handler (Status (list SurfaceState)) :=
  items <- DisplayService_ForEachDisplaySurface Application visit_surface [] ;;
  s <- get ;;
  dm <- deref (display_manager_ s) ;;
  SetNotificationsPending dm false ;;;
  ret (OkStatus items).

(** Lines 125-145. *)
Definition OnGetSurfaceQueue (message : Message) (surface_id queue_id : Z)
  : Handler (Status LocalChannelHandle) :=
  s <- get ;;
  match GetDisplaySurface (display_service_ s) surface_id with
  | None => ret (ErrorStatus EINVAL)
  | Some surface =>
      if negb (bool_decide (surface_type surface = Application)) then
        ret (ErrorStatus EINVAL)
      else
        match GetQueue surface queue_id with
        | None => ret (ErrorStatus EINVAL)
        | Some queue =>
            let status := CreateConsumerQueueHandle queue in
            ALOGE_IF (negb (is_ok status))
              (ALOGE
                 "DisplayManagerService::OnGetSurfaceQueue: Failed to create consumer queue for queue_id=%d: %s"
                 (ArgInt (id queue) ::
                  match status with
                  | ErrorStatus e => [ArgErrorMessage e]
                  | OkStatus _ => []
                  end)) ;;;
            ret status
        end
  end.

(** Lines 147-162. *)
Definition OnSetupNamedBuffer (message : Message) (name : string)
    (size usage : Z) : Handler (Status BorrowedNativeBufferHandle) :=
  let user_id := GetEffectiveUserId message in
  let trusted := trusted_user user_id in
  if negb trusted then
    log_error
      (ALOGE
         "DisplayService::SetupNamedBuffer: Named buffers may only be created by trusted UIDs: user_id=%d"
         [ArgInt user_id]) ;;;
    ret (ErrorStatus EPERM)
  else
    fun s =>
      let ds := display_service_ s in
      let '(status, buffers) :=
        DisplayService_SetupNamedBuffer name size usage (named_buffers_ ds) in
      Returned status
        (mkService (display_manager_ s)
                   (mkDisplayService (surfaces_ ds) buffers)
                   (endpoint_ s)) [].

(** The [switch] of lines 167-179. *)
Definition property_name_of (config_type : Z) : option string :=
  if decide (config_type = ConfigFileType.kLensMetrics) then
    Some kDvrLensMetricsProperty
  else if decide (config_type = ConfigFileType.kDeviceMetrics) then
    Some kDvrDeviceMetricsProperty
  else if decide (config_type = ConfigFileType.kDeviceConfiguration) then
    Some kDvrDeviceConfigProperty
  else None.

(** Lines 164-191. *)
Definition OnGetConfigurationData (message : Message) (config_type : Z)
  : Handler (Status string) :=
  match property_name_of config_type with
  | None => ret (ErrorStatus EINVAL)
  | Some property_name =>
      let file_path := GetProperty property_name "" in
      if bool_decide (file_path = "") then ret (ErrorStatus ENOENT)
      else
        let '(ok, data, errno) := ReadFileToString file_path in
        if negb ok then ret (ErrorStatus errno)
        else ret (OkStatus data)
  end.

(** Lines 193-196. *)
Definition OnDisplaySurfaceChange : Handler unit :=
  s <- get ;;
  match display_manager_ s with
  | Some dm => SetNotificationsPending dm true
  | None => ret tt
  end.

(** Lines 77-104. *)
Definition HandleMessage (message : Message) : Handler Reply :=
  let channel := GetChannel message in
  match GetRequest message with
  | GetSurfaceState =>
      r <- OnGetSurfaceState message ;; ret (ReplySurfaceState r)
  | GetSurfaceQueue surface_id queue_id =>
      r <- OnGetSurfaceQueue message surface_id queue_id ;;
      ret (ReplySurfaceQueue r)
  | SetupNamedBuffer name size usage =>
      r <- OnSetupNamedBuffer message name size usage ;;
      ret (ReplyNamedBuffer r)
  | GetConfigurationData config_type =>
      r <- OnGetConfigurationData message config_type ;;
      ret (ReplyConfigurationData r)
  | OtherOp op => ret (DefaultHandleMessage op)
  end.

End Methods.

(** ** The event loop of the transport

    Modelled from the spec: the transport substrate delivers channel-open,
    channel-close and message events one at a time; a message or a close is
    deliverable only on a channel that is open at the endpoint; a channel
    whose open the service accepted is entered in the endpoint with no
    readiness bit set and with the channel object the service returned; a
    rejected open leaves no channel behind.  The display service invokes the
    registered notifier after it changed its surfaces. *)

Module opcodes.
Definition CHANNEL_OPEN : Z := -1.
Definition CHANNEL_CLOSE : Z := -2.
End opcodes.

Inductive Event : Type :=
| ChannelOpen (euid cid : Z) (new_object : Z)
| ChannelClose (euid cid : Z)
| IncomingMessage (euid cid : Z) (request : Request)
| SurfaceChange (surfaces : list DisplaySurface).

Inductive Response : Type :=
| Opened (channel : option DisplayManager) (error : option Z)
| Closed
| Replied (r : Reply)
| Notified.

Definition register_channel (cid : Z) (channel : DisplayManager)
  : Handler unit :=
  fun s =>
    Returned tt
      (mkService (display_manager_ s) (display_service_ s)
         (mkEndpoint
            (<[cid := mkChannelData 0 (Some channel)]>
               (channels_ (endpoint_ s))))) [].

Definition unregister_channel (cid : Z) : Handler unit :=
  fun s =>
    Returned tt
      (mkService (display_manager_ s) (display_service_ s)
         (mkEndpoint (delete cid (channels_ (endpoint_ s))))) [].

Definition set_surfaces (surfaces : list DisplaySurface) : Handler unit :=
  fun s =>
    Returned tt
      (mkService (display_manager_ s)
         (mkDisplayService surfaces (named_buffers_ (display_service_ s)))
         (endpoint_ s)) [].

Definition initial (ds : DisplayService) : DisplayManagerService :=
  mkService None ds (mkEndpoint ∅).

(** The notification-pending flag of a channel: the readable bit of its
    readiness set at the endpoint. *)
Definition NotificationsPending (channel_id : Z) (s : DisplayManagerService)
  : bool :=
  match channels_ (endpoint_ s) !! channel_id with
  | Some data => negb (Z.land (event_bits data) POLLIN =? 0)
  | None => false
  end.

(** The channel objects that some [shared_ptr] still points to: the one in the
    live-session slot and those the endpoint holds for its open channels. *)
Definition channel_objects (s : DisplayManagerService) : list DisplayManager :=
  option_list (display_manager_ s) ++
  omap (fun kv => channel_state kv.2) (map_to_list (channels_ (endpoint_ s))).

Section EventLoop.
Context {platform : Platform}.

Definition deliver (ev : Event) (s : DisplayManagerService)
  : option (Outcome Response) :=
  match ev with
  | ChannelOpen euid cid new_object =>
      Some ((r <- OnChannelOpen new_object
                    (mkMessage euid cid None (OtherOp opcodes.CHANNEL_OPEN)) ;;
             match r.1 with
             | Some channel => register_channel cid channel
             | None => ret tt
             end ;;;
             ret (Opened r.1 r.2)) s)
  | ChannelClose euid cid =>
      match channels_ (endpoint_ s) !! cid with
      | Some data =>
          Some ((OnChannelClose
                   (mkMessage euid cid (channel_state data)
                      (OtherOp opcodes.CHANNEL_CLOSE))
                   (channel_state data) ;;;
                 unregister_channel cid ;;;
                 ret Closed) s)
      | None => None
      end
  | IncomingMessage euid cid request =>
      match channels_ (endpoint_ s) !! cid with
      | Some data =>
          Some ((r <- HandleMessage
                        (mkMessage euid cid (channel_state data) request) ;;
                 ret (Replied r)) s)
      | None => None
      end
  | SurfaceChange surfaces =>
      Some ((set_surfaces surfaces ;;;
             OnDisplaySurfaceChange ;;;
             ret Notified) s)
  end.

Inductive reachable : DisplayManagerService -> Prop :=
| reachable_initial ds : reachable (initial ds)
| reachable_step s ev r s' log :
    reachable s ->
    deliver ev s = Some (Returned r s' log) ->
    reachable s'.

(** Whether a surface change happened that the live channel has not seen:
    set by a surface change, reset when a channel is created and when a
    GetSurfaceState call succeeds. *)
Definition unseen_change (ev : Event) (r : Response) (unseen : bool) : bool :=
  match ev, r with
  | SurfaceChange _, _ => true
  | ChannelOpen _ _ _, Opened (Some _) _ => false
  | IncomingMessage _ _ GetSurfaceState,
    Replied (ReplySurfaceState (OkStatus _)) => false
  | _, _ => unseen
  end.

(** Runs a sequence of events; [None] when an event is not deliverable or a
    handler dereferences a null pointer. *)
Fixpoint run (evs : list Event) (st : DisplayManagerService * bool)
  : option (DisplayManagerService * bool) :=
  match evs with
  | [] => Some st
  | ev :: rest =>
      match deliver ev st.1 with
      | Some (Returned r s' _) => run rest (s', unseen_change ev r st.2)
      | _ => None
      end
  end.

End EventLoop.

(** ** Vocabulary of the statements *)

(** The application surfaces of the registry, in enumeration order. *)
Definition application_surfaces (ds : DisplayService) : list DisplaySurface :=
  filter (fun surface => surface_type surface = Application) (surfaces_ ds).

(** What the visitor of [OnGetSurfaceState] leaves of a surface. *)
Definition mark_seen (surface : DisplaySurface) : DisplaySurface :=
  if decide (surface_type surface = Application) then ClearUpdate surface
  else surface.

(** The single-session invariant: the endpoint has an open channel exactly
    when the live-session slot is set, and then it has one channel, the one
    of the object in the slot. *)
Definition single_session (s : DisplayManagerService) : Prop :=
  match display_manager_ s with
  | Some dm =>
      exists bits,
        channels_ (endpoint_ s) =
          {[channel_id_ dm := mkChannelData bits (Some dm)]}
  | None => channels_ (endpoint_ s) = ∅
  end.

(** Two messages that differ at most in the identity of the sender. *)
Definition same_up_to_identity (m1 m2 : Message) : Prop :=
  GetChannelId m1 = GetChannelId m2 /\
  GetChannel m1 = GetChannel m2 /\
  GetRequest m1 = GetRequest m2.

(** The requests whose handlers never read the message. *)
Definition identity_blind (request : Request) : bool :=
  match request with
  | GetSurfaceState | GetSurfaceQueue _ _ | GetConfigurationData _ => true
  | SetupNamedBuffer _ _ _ | OtherOp _ => false
  end.

(** The toggle in the words of the specification, to compare the code with:
    with [pending] the readable signal is set and the writable signal is
    cleared, without it the reverse. *)
Definition two_signal_toggle (pending : bool) (bits : Z) : Prop :=
  negb (Z.land bits POLLIN =? 0) = pending /\
  negb (Z.land bits POLLOUT =? 0) = negb pending.

(** ** A sample platform, for the examples *)

Definition sample_surface (sid : Z) (ty : SurfaceType) : DisplaySurface :=
  mkSurface sid 100 10001 [(1, 1)] 3 ty [mkQueue 5; mkQueue 6].

Definition sample_platform : Platform :=
  {| IsTrustedUid := fun uid => bool_decide (uid = 1000);
     GetProperty := fun key default =>
       if bool_decide (key = kDvrDeviceMetricsProperty) then "/data/metrics"
       else if bool_decide (key = kDvrLensMetricsProperty) then "/data/missing"
       else default;
     ReadFileToString := fun path =>
       if bool_decide (path = "/data/metrics") then (true, "blob", 0)
       else (false, "", ENOENT);
     CreateConsumerQueueHandle := fun q =>
       if bool_decide (id q = 5) then OkStatus 77 else ErrorStatus 12;
     DisplayService_SetupNamedBuffer := fun name size usage buffers =>
       (OkStatus 1, <[name := (size, usage)]> buffers) |}.

Definition sample_display_service : DisplayService :=
  mkDisplayService
    [sample_surface 1 Application; sample_surface 2 Direct;
     sample_surface 3 Application] ∅.

(** The sample service with the display manager of root live on channel 7. *)
Definition sample_live : DisplayManagerService :=
  mkService (Some (mkDisplayManager 4096 7)) sample_display_service
    (mkEndpoint {[7 := mkChannelData 0 (Some (mkDisplayManager 4096 7))]}).

(** The same after a surface change: the readable bit of channel 7 is set. *)
Definition sample_notified : DisplayManagerService :=
  mkService (Some (mkDisplayManager 4096 7)) sample_display_service
    (mkEndpoint {[7 := mkChannelData POLLIN (Some (mkDisplayManager 4096 7))]}).

(** The live sample service with channel 7 writable and nothing pending. *)
Definition sample_writable : DisplayManagerService :=
  mkService (Some (mkDisplayManager 4096 7)) sample_display_service
    (mkEndpoint {[7 := mkChannelData POLLOUT (Some (mkDisplayManager 4096 7))]}).

(** A service whose slot holds a channel the endpoint does not know. *)
Definition sample_detached : DisplayManagerService :=
  mkService (Some (mkDisplayManager 4096 7)) sample_display_service
    (mkEndpoint ∅).

(** ** Vocabulary of the further properties *)

(** The state a handler leaves when it returns. *)
Definition final_state {A : Type} (o : Outcome A)
  : option DisplayManagerService :=
  match o with
  | Returned _ s _ => Some s
  | NullDereference => None
  end.

(** The kind of reply that answers a request. *)
Definition reply_matches (request : Request) (r : Reply) : Prop :=
  match request, r with
  | GetSurfaceState, ReplySurfaceState _ => True
  | GetSurfaceQueue _ _, ReplySurfaceQueue _ => True
  | SetupNamedBuffer _ _ _, ReplyNamedBuffer _ => True
  | GetConfigurationData _, ReplyConfigurationData _ => True
  | OtherOp op, DefaultHandleMessage op' => op = op'
  | _, _ => False
  end.

(** What [ModifyChannelEvents] does to the data of the channel it finds. *)
Definition modify_channel_data (clear_mask set_mask : Z) (data : ChannelData)
  : ChannelData :=
  mkChannelData (ModifyEvents clear_mask set_mask (event_bits data))
    (channel_state data).

(** A registry as the display service keeps it: one surface per id. *)
Definition unique_surface_ids (ds : DisplayService) : Prop :=
  NoDup (surface_id <$> surfaces_ ds).

(** The sample service after a GetSurfaceState call: the application
    surfaces have their update flags cleared, nothing is pending. *)
Definition sample_seen : DisplayManagerService :=
  mkService (Some (mkDisplayManager 4096 7))
    (mkDisplayService (mark_seen <$> surfaces_ sample_display_service) ∅)
    (mkEndpoint {[7 := mkChannelData 0 (Some (mkDisplayManager 4096 7))]}).

Definition sample_poll : Message :=
  mkMessage 1000 7 (Some (mkDisplayManager 4096 7)) GetSurfaceState.

(** ** Reasoning support *)

Ltac unfold_handlers :=
  unfold bind, ret, get, log_error, null_dereference, ALOGE_IF, deref,
    set_display_manager, Service_ModifyChannelEvents,
    DisplayService_ForEachDisplaySurface, register_channel,
    unregister_channel, set_surfaces in *.

Lemma service_eta (s : DisplayManagerService) :
  mkService (display_manager_ s) (display_service_ s) (endpoint_ s) = s.
Proof. by destruct s. Qed.

Lemma display_service_eta (ds : DisplayService) :
  mkDisplayService (surfaces_ ds) (named_buffers_ ds) = ds.
Proof. by destruct ds. Qed.

Lemma POLLIN_bit (bits : Z) :
  negb (Z.land bits POLLIN =? 0) = Z.testbit bits 0.
Proof.
  unfold POLLIN. change 1 with (Z.ones 1). rewrite Z.land_ones by lia.
  change (2 ^ 1) with 2. rewrite <- Z.bit0_mod.
  by destruct (Z.testbit bits 0).
Qed.

Lemma ModifyEvents_testbit (clear_mask set_mask bits n : Z) :
  0 ≤ n →
  Z.testbit (ModifyEvents clear_mask set_mask bits) n =
    (Z.testbit bits n && negb (Z.testbit clear_mask n)) || Z.testbit set_mask n.
Proof.
  intros Hn. unfold ModifyEvents.
  by rewrite Z.lor_spec, Z.land_spec, Z.lnot_spec.
Qed.

Section MethodFacts.
Context {platform : Platform}.

Lemma trusted_user_spec (uid : Z) :
  trusted_user uid = true ↔ uid = AID_ROOT ∨ IsTrustedUid uid = true.
Proof.
  unfold trusted_user. rewrite orb_true_iff, bool_decide_eq_true. tauto.
Qed.

Lemma OnChannelOpen_rejects new_object message s :
  is_Some (display_manager_ s) ∨
    trusted_user (GetEffectiveUserId message) = false →
  OnChannelOpen new_object message s = Returned (None, Some EPERM) s [].
Proof.
  intros Hrej. unfold OnChannelOpen. unfold_handlers.
  destruct Hrej as [Hlive | Huntrusted].
  - rewrite (bool_decide_eq_true_2 _ Hlive). reflexivity.
  - rewrite Huntrusted, orb_true_r. reflexivity.
Qed.

Lemma OnChannelOpen_accepts new_object message s :
  display_manager_ s = None →
  trusted_user (GetEffectiveUserId message) = true →
  OnChannelOpen new_object message s =
    Returned (Some (mkDisplayManager new_object (GetChannelId message)), None)
      (mkService (Some (mkDisplayManager new_object (GetChannelId message)))
         (display_service_ s) (endpoint_ s)) [].
Proof.
  intros Hnone Htrusted. unfold OnChannelOpen. unfold_handlers.
  rewrite Htrusted, Hnone.
  rewrite bool_decide_eq_false_2 by (intros [? ?]; discriminate).
  reflexivity.
Qed.

Lemma OnChannelClose_live message s dm :
  display_manager_ s = Some dm →
  OnChannelClose message (Some dm) s =
    Returned tt (mkService None (display_service_ s) (endpoint_ s)) [].
Proof.
  intros Hlive. unfold OnChannelClose. unfold_handlers.
  rewrite decide_True by done. reflexivity.
Qed.

Lemma OnChannelClose_other message channel s :
  display_manager_ s ≠ channel →
  OnChannelClose message channel s = Returned tt s [].
Proof.
  intros Hne. unfold OnChannelClose. unfold_handlers.
  rewrite decide_False by done. reflexivity.
Qed.

(** The toggle on a channel that is open at the endpoint. *)
Lemma SetNotificationsPending_open dm pending s data :
  channels_ (endpoint_ s) !! channel_id_ dm = Some data →
  SetNotificationsPending dm pending s =
    Returned tt
      (mkService (display_manager_ s) (display_service_ s)
         (mkEndpoint
            (<[channel_id_ dm :=
                 mkChannelData
                   (ModifyEvents (if pending then 0 else POLLIN)
                      (if pending then POLLIN else 0) (event_bits data))
                   (channel_state data)]> (channels_ (endpoint_ s))))) [].
Proof.
  intros Hopen. unfold SetNotificationsPending. unfold_handlers.
  unfold ModifyChannelEvents. rewrite Hopen. reflexivity.
Qed.

(** The toggle on a channel the endpoint does not know: the error is
    logged, nothing else happens. *)
Lemma SetNotificationsPending_unknown dm pending s :
  channels_ (endpoint_ s) !! channel_id_ dm = None →
  SetNotificationsPending dm pending s =
    Returned tt s
      [ALOGE
         "DisplayManager::SetNotificationPending: Failed to modify channel events: %s"
         [ArgErrorMessage EINVAL]].
Proof.
  intros Hclosed. unfold SetNotificationsPending. unfold_handlers.
  unfold ModifyChannelEvents. rewrite Hclosed. simpl.
  by rewrite service_eta.
Qed.

Lemma SetNotificationsPending_returns dm pending s :
  ∃ ep log,
    SetNotificationsPending dm pending s =
      Returned tt (mkService (display_manager_ s) (display_service_ s) ep) log
    ∧ ep = (ModifyChannelEvents (channel_id_ dm)
              (if pending then 0 else POLLIN)
              (if pending then POLLIN else 0) (endpoint_ s)).2.
Proof.
  destruct (channels_ (endpoint_ s) !! channel_id_ dm) as [data|] eqn:Hch.
  - rewrite (SetNotificationsPending_open _ _ _ _ Hch).
    eexists _, _. split; [reflexivity|].
    unfold ModifyChannelEvents. by rewrite Hch.
  - rewrite (SetNotificationsPending_unknown _ _ _ Hch).
    eexists _, _. rewrite service_eta. split; [reflexivity|].
    unfold ModifyChannelEvents. by rewrite Hch.
Qed.

Lemma ForEachDisplaySurface_visit surfaces items :
  ForEachDisplaySurface Application visit_surface surfaces items =
    (mark_seen <$> surfaces,
     items ++
       (snapshot <$>
          filter (fun surface => surface_type surface = Application) surfaces)).
Proof.
  revert items. induction surfaces as [|surface rest IH]; intros items; simpl.
  - by rewrite app_nil_r.
  - unfold mark_seen at 1. rewrite filter_cons.
    destruct (decide (surface_type surface = Application)) as [Happ|Hother].
    + unfold visit_surface at 1. rewrite IH. simpl.
      by rewrite <- app_assoc.
    + by rewrite IH.
Qed.

End MethodFacts.

(** ** Facts about the event loop *)

Section EventLoopFacts.
Context {platform : Platform}.

Lemma single_session_lookup s cid data :
  single_session s →
  channels_ (endpoint_ s) !! cid = Some data →
  ∃ dm, display_manager_ s = Some dm ∧ cid = channel_id_ dm ∧
        channel_state data = Some dm ∧
        channels_ (endpoint_ s) = {[cid := data]}.
Proof.
  unfold single_session. intros Hinv Hlook.
  destruct (display_manager_ s) as [dm|].
  - destruct Hinv as [bits Hch]. rewrite Hch in Hlook.
    apply lookup_singleton_Some in Hlook as [<- <-].
    exists dm. by rewrite Hch.
  - rewrite Hinv in Hlook. by rewrite lookup_empty in Hlook.
Qed.

Lemma single_session_live s dm :
  single_session s →
  display_manager_ s = Some dm →
  ∃ bits, channels_ (endpoint_ s) !! channel_id_ dm =
            Some (mkChannelData bits (Some dm)).
Proof.
  unfold single_session. intros Hinv Hlive. rewrite Hlive in Hinv.
  destruct Hinv as [bits Hch]. exists bits.
  by rewrite Hch, lookup_singleton_eq.
Qed.

Lemma SetNotificationsPending_single_session dm pending s :
  single_session s →
  display_manager_ s = Some dm →
  ∃ s', SetNotificationsPending dm pending s = Returned tt s' [] ∧
        single_session s' ∧
        display_manager_ s' = Some dm ∧
        display_service_ s' = display_service_ s ∧
        NotificationsPending (channel_id_ dm) s' = pending.
Proof.
  intros Hinv Hlive.
  destruct (single_session_live _ _ Hinv Hlive) as [bits Hch].
  rewrite (SetNotificationsPending_open _ _ _ _ Hch).
  eexists. split; [reflexivity|]. simpl.
  unfold single_session, NotificationsPending in *. simpl.
  rewrite Hlive in *. destruct Hinv as [bits' Hinv].
  rewrite Hinv, insert_singleton_eq, lookup_singleton_eq. simpl.
  split; [by eexists|]. split; [done|]. split; [done|].
  rewrite POLLIN_bit, ModifyEvents_testbit by lia.
  destruct pending; simpl; [by rewrite orb_true_r|].
  by rewrite andb_false_r.
Qed.

Lemma OnGetSurfaceState_returns message s dm :
  display_manager_ s = Some dm →
  ∃ s' log,
    OnGetSurfaceState message s =
      Returned (OkStatus (snapshot <$> application_surfaces (display_service_ s)))
        s' log ∧
    SetNotificationsPending dm false
      (mkService (display_manager_ s)
         (mkDisplayService (mark_seen <$> surfaces_ (display_service_ s))
            (named_buffers_ (display_service_ s)))
         (endpoint_ s)) = Returned tt s' log.
Proof.
  intros Hlive. unfold OnGetSurfaceState.
  unfold bind at 1. unfold DisplayService_ForEachDisplaySurface.
  rewrite ForEachDisplaySurface_visit. simpl.
  unfold bind at 1. unfold get at 1.
  unfold bind at 1. simpl. rewrite Hlive. unfold deref, ret at 1.
  unfold bind at 1.
  set (s1 := mkService _ _ _).
  destruct (SetNotificationsPending_returns dm false s1) as (ep & log & Hset & _).
  rewrite Hset. unfold ret. simpl. rewrite app_nil_r.
  eexists _, _. split; reflexivity.
Qed.

Lemma OnGetSurfaceState_null message s :
  display_manager_ s = None →
  OnGetSurfaceState message s = NullDereference.
Proof.
  intros Hnone. unfold OnGetSurfaceState.
  unfold bind at 1. unfold DisplayService_ForEachDisplaySurface.
  rewrite ForEachDisplaySurface_visit. simpl.
  unfold bind at 1. unfold get at 1.
  unfold bind at 1. simpl. by rewrite Hnone.
Qed.

End EventLoopFacts.

Section DeliverFacts.
Context {platform : Platform}.

Lemma OnGetSurfaceQueue_pure message sid qid s :
  ∃ r log, OnGetSurfaceQueue message sid qid s = Returned r s log.
Proof.
  unfold OnGetSurfaceQueue. unfold_handlers.
  destruct (GetDisplaySurface _ _) as [surface|]; [|by eexists _, _].
  destruct (negb _); [by eexists _, _|].
  destruct (GetQueue _ _) as [queue|]; [|by eexists _, _].
  destruct (CreateConsumerQueueHandle queue); simpl; by eexists _, _.
Qed.

Lemma OnGetConfigurationData_pure message config_type s :
  ∃ r, OnGetConfigurationData message config_type s = Returned r s [].
Proof.
  unfold OnGetConfigurationData. unfold_handlers.
  destruct (property_name_of _) as [name|]; [|by eexists].
  destruct (bool_decide _); [by eexists|].
  destruct (ReadFileToString _) as [[ok data] errno].
  destruct ok; simpl; by eexists.
Qed.

Lemma OnSetupNamedBuffer_frame message name size usage s :
  ∃ r s' log,
    OnSetupNamedBuffer message name size usage s = Returned r s' log ∧
    display_manager_ s' = display_manager_ s ∧
    endpoint_ s' = endpoint_ s ∧
    surfaces_ (display_service_ s') = surfaces_ (display_service_ s).
Proof.
  unfold OnSetupNamedBuffer. unfold_handlers.
  destruct (negb _); [by eexists _, _, _|].
  destruct (DisplayService_SetupNamedBuffer _ _ _ _) as [status buffers].
  by eexists _, _, _.
Qed.

(** What a message leaves of the session, in a state that satisfies the
    single-session invariant and has a live channel. *)
Lemma HandleMessage_single_session message s dm :
  single_session s →
  display_manager_ s = Some dm →
  ∃ r s' log,
    HandleMessage message s = Returned r s' log ∧
    single_session s' ∧
    display_manager_ s' = Some dm ∧
    match GetRequest message with
    | GetSurfaceState =>
        (∃ items, r = ReplySurfaceState (OkStatus items)) ∧
        NotificationsPending (channel_id_ dm) s' = false
    | _ =>
        (∀ items, r ≠ ReplySurfaceState items) ∧
        endpoint_ s' = endpoint_ s
    end.
Proof.
  intros Hinv Hlive. unfold HandleMessage.
  destruct (GetRequest message) as [|sid qid|name size usage|ty|op].
  - destruct (OnGetSurfaceState_returns message s dm Hlive)
      as (s' & log & Hrun & Hset).
    set (s1 := mkService _ _ _) in Hset.
    destruct (SetNotificationsPending_single_session dm false s1)
      as (s2 & Hset' & Hinv' & Hlive' & _ & Hflag).
    { unfold single_session in *. simpl. exact Hinv. }
    { exact Hlive. }
    rewrite Hset in Hset'. injection Hset' as -> ->.
    unfold bind. rewrite Hrun. unfold ret. simpl.
    eexists _, _, _. split; [reflexivity|]. eauto.
  - destruct (OnGetSurfaceQueue_pure message sid qid s) as (r & log & Hrun).
    unfold bind. rewrite Hrun. unfold ret.
    eexists _, _, _. split; [reflexivity|]. done.
  - destruct (OnSetupNamedBuffer_frame message name size usage s)
      as (r & s' & log & Hrun & Hdm & Hep & _).
    unfold bind. rewrite Hrun. unfold ret.
    eexists _, _, _. split; [reflexivity|].
    unfold single_session in *. rewrite Hdm, Hep. done.
  - destruct (OnGetConfigurationData_pure message ty s) as (r & Hrun).
    unfold bind. rewrite Hrun. unfold ret.
    eexists _, _, _. split; [reflexivity|]. done.
  - unfold ret. eexists _, _, _. split; [reflexivity|]. done.
Qed.

Lemma deliver_open_rejected euid cid new_object s :
  is_Some (display_manager_ s) ∨ trusted_user euid = false →
  deliver (ChannelOpen euid cid new_object) s =
    Some (Returned (Opened None (Some EPERM)) s []).
Proof.
  intros Hrej. simpl. unfold bind at 1.
  by rewrite OnChannelOpen_rejects.
Qed.

Lemma deliver_open_accepted euid cid new_object s :
  display_manager_ s = None →
  trusted_user euid = true →
  deliver (ChannelOpen euid cid new_object) s =
    Some (Returned (Opened (Some (mkDisplayManager new_object cid)) None)
            (mkService (Some (mkDisplayManager new_object cid))
               (display_service_ s)
               (mkEndpoint
                  (<[cid := mkChannelData 0
                              (Some (mkDisplayManager new_object cid))]>
                     (channels_ (endpoint_ s))))) []).
Proof.
  intros Hnone Htrusted. simpl. unfold bind at 1.
  by rewrite OnChannelOpen_accepts.
Qed.

Lemma deliver_close euid cid s data :
  channels_ (endpoint_ s) !! cid = Some data →
  deliver (ChannelClose euid cid) s =
    Some (Returned Closed
            (mkService
               (if decide (display_manager_ s = channel_state data)
                then None else display_manager_ s)
               (display_service_ s)
               (mkEndpoint (delete cid (channels_ (endpoint_ s))))) []).
Proof.
  intros Hopen. simpl. rewrite Hopen.
  unfold OnChannelClose. unfold_handlers.
  by destruct (decide _).
Qed.

Lemma deliver_not_open euid cid s :
  channels_ (endpoint_ s) !! cid = None →
  (∀ request, deliver (IncomingMessage euid cid request) s = None) ∧
  deliver (ChannelClose euid cid) s = None.
Proof. intros Hclosed. simpl. by rewrite Hclosed. Qed.

Lemma deliver_surface_change_idle surfaces s :
  display_manager_ s = None →
  deliver (SurfaceChange surfaces) s =
    Some (Returned Notified
            (mkService None
               (mkDisplayService surfaces
                  (named_buffers_ (display_service_ s)))
               (endpoint_ s)) []).
Proof.
  intros Hnone. simpl. unfold OnDisplaySurfaceChange. unfold_handlers.
  simpl. by rewrite Hnone.
Qed.

Lemma deliver_surface_change_live surfaces s dm :
  single_session s →
  display_manager_ s = Some dm →
  ∃ s', deliver (SurfaceChange surfaces) s = Some (Returned Notified s' []) ∧
        single_session s' ∧
        display_manager_ s' = Some dm ∧
        surfaces_ (display_service_ s') = surfaces ∧
        NotificationsPending (channel_id_ dm) s' = true.
Proof.
  intros Hinv Hlive. simpl.
  set (s1 := mkService (display_manager_ s)
               (mkDisplayService surfaces (named_buffers_ (display_service_ s)))
               (endpoint_ s)).
  destruct (SetNotificationsPending_single_session dm true s1)
    as (s' & Hset & Hinv' & Hlive' & Hds & Hflag); [done..|].
  exists s'. unfold OnDisplaySurfaceChange.
  unfold bind at 1. unfold set_surfaces. fold s1.
  unfold bind at 1. unfold bind at 1. unfold get at 1.
  change (display_manager_ s1) with (display_manager_ s). rewrite Hlive.
  rewrite Hset. unfold ret. simpl.
  rewrite Hds. done.
Qed.

(** Every event that is delivered in a state with the invariant returns,
    and keeps the invariant. *)
Lemma deliver_single_session ev s :
  single_session s →
  deliver ev s = None ∨
  ∃ r s' log, deliver ev s = Some (Returned r s' log) ∧ single_session s'.
Proof.
  intros Hinv. destruct ev as [euid cid a|euid cid|euid cid request|surfaces].
  - right.
    destruct (display_manager_ s) as [dm|] eqn:Hdm.
    + rewrite deliver_open_rejected by (left; rewrite Hdm; eauto).
      by eexists _, _, _.
    + destruct (trusted_user euid) eqn:Ht.
      * rewrite deliver_open_accepted by done.
        eexists _, _, _. split; [reflexivity|].
        unfold single_session in *. simpl. rewrite Hdm in Hinv.
        rewrite Hinv. exists 0. by rewrite insert_empty.
      * rewrite deliver_open_rejected by (by right).
        by eexists _, _, _.
  - destruct (channels_ (endpoint_ s) !! cid) as [data|] eqn:Hopen.
    + right. rewrite (deliver_close _ _ _ _ Hopen).
      eexists _, _, _. split; [reflexivity|].
      destruct (single_session_lookup _ _ _ Hinv Hopen)
        as (dm & Hlive & -> & Hstate & Hch).
      unfold single_session. simpl.
      rewrite decide_True by congruence.
      by rewrite Hch, delete_singleton_eq.
    + left. by apply deliver_not_open.
  - destruct (channels_ (endpoint_ s) !! cid) as [data|] eqn:Hopen.
    + right.
      destruct (single_session_lookup _ _ _ Hinv Hopen)
        as (dm & Hlive & -> & Hstate & Hch).
      destruct (HandleMessage_single_session
                  (mkMessage euid (channel_id_ dm) (channel_state data) request)
                  s dm Hinv Hlive) as (r & s' & log & Hrun & Hinv' & _).
      simpl. rewrite Hopen. unfold bind. rewrite Hrun. unfold ret.
      by eexists _, _, _.
    + left. by apply deliver_not_open.
  - right. destruct (display_manager_ s) as [dm|] eqn:Hdm.
    + destruct (deliver_surface_change_live surfaces s dm Hinv Hdm)
        as (s' & Hrun & Hinv' & _).
      by eexists _, _, _.
    + rewrite deliver_surface_change_idle by done.
      eexists _, _, _. split; [reflexivity|].
      unfold single_session in *. simpl. by rewrite Hdm in Hinv.
Qed.

Lemma reachable_single_session s : reachable s → single_session s.
Proof.
  induction 1 as [ds|s ev r s' log _ IH Hstep]; [done|].
  destruct (deliver_single_session ev s IH)
    as [Hnone|(r' & s'' & log' & Hrun & Hinv)]; congruence.
Qed.

End DeliverFacts.

(** ** Channel admission *)

Section Admission.
Context {platform : Platform}.

(** C1: [OnChannelOpen] rejects with [EPERM] exactly when a display manager
    is live or the effective user is untrusted, where trusted means root or
    a uid that [IsTrustedUid] accepts; a rejection returns no channel and
    leaves the service as it was.  Otherwise it returns a new
    [DisplayManager] that holds the channel id of the message, and stores
    it in the live-session slot. *)
Theorem OnChannelOpen_admission (new_object : Z) (message : Message)
    (s : DisplayManagerService) :
  let uid := GetEffectiveUserId message in
  let dm := mkDisplayManager new_object (GetChannelId message) in
  let rejected := is_Some (display_manager_ s) ∨ trusted_user uid = false in
  (trusted_user uid = true ↔ uid = AID_ROOT ∨ IsTrustedUid uid = true) ∧
  (rejected ↔
     OnChannelOpen new_object message s = Returned (None, Some EPERM) s []) ∧
  (¬ rejected ↔
     OnChannelOpen new_object message s =
       Returned (Some dm, None)
         (mkService (Some dm) (display_service_ s) (endpoint_ s)) []) ∧
  channel_id_ dm = GetChannelId message.
Proof.
  intros uid dm rejected.
  assert (Hcases : rejected ∨
            (display_manager_ s = None ∧ trusted_user uid = true)).
  { unfold rejected.
    destruct (display_manager_ s) as [d|]; [left; left; eauto|].
    destruct (trusted_user uid); [right; done | left; right; done]. }
  split; [apply trusted_user_spec|].
  split; [|split].
  - split; [apply OnChannelOpen_rejects|].
    intros Hrun. destruct Hcases as [?|[Hn Ht]]; [done|].
    rewrite (OnChannelOpen_accepts _ _ _ Hn Ht) in Hrun. discriminate.
  - split.
    + intros Hnot. destruct Hcases as [?|[Hn Ht]]; [done|].
      by apply OnChannelOpen_accepts.
    + intros Hrun Hrej.
      rewrite (OnChannelOpen_rejects _ _ _ Hrej) in Hrun. discriminate.
  - reflexivity.
Qed.

Lemma channel_objects_single_session s :
  single_session s →
  channel_objects s =
    match display_manager_ s with
    | Some dm => [dm; dm]
    | None => []
    end.
Proof.
  unfold single_session, channel_objects.
  destruct (display_manager_ s) as [dm|].
  - intros [bits ->]. by rewrite map_to_list_singleton.
  - intros ->. by rewrite map_to_list_empty.
Qed.

(** What an event can do to a live session: keep it, or close it. *)
Lemma deliver_keeps_or_closes s dm ev r s' log :
  single_session s →
  display_manager_ s = Some dm →
  deliver ev s = Some (Returned r s' log) →
  display_manager_ s' = Some dm ∨
  (display_manager_ s' = None ∧
   ∃ euid data,
     ev = ChannelClose euid (channel_id_ dm) ∧
     channels_ (endpoint_ s) !! channel_id_ dm = Some data ∧
     channel_state data = Some dm).
Proof.
  intros Hinv Hlive Hstep.
  destruct ev as [euid cid a|euid cid|euid cid request|surfaces].
  - rewrite deliver_open_rejected in Hstep by (left; rewrite Hlive; eauto).
    left. congruence.
  - destruct (channels_ (endpoint_ s) !! cid) as [data|] eqn:Hopen.
    + rewrite (deliver_close _ _ _ _ Hopen) in Hstep.
      destruct (single_session_lookup _ _ _ Hinv Hopen)
        as (dm' & Hlive' & -> & Hstate & _).
      assert (dm' = dm) as -> by congruence.
      rewrite decide_True in Hstep by congruence.
      right. injection Hstep as _ <- _. split; [done|]. eauto.
    + destruct (deliver_not_open euid cid s Hopen) as [_ Hno]. congruence.
  - destruct (channels_ (endpoint_ s) !! cid) as [data|] eqn:Hopen.
    + destruct (HandleMessage_single_session
                  (mkMessage euid cid (channel_state data) request)
                  s dm Hinv Hlive) as (r' & s'' & log' & Hrun & _ & Hlive' & _).
      simpl in Hstep. rewrite Hopen in Hstep.
      unfold bind in Hstep. rewrite Hrun in Hstep. unfold ret in Hstep.
      left. congruence.
    + destruct (deliver_not_open euid cid s Hopen) as [Hno _].
      rewrite Hno in Hstep. discriminate.
  - destruct (deliver_surface_change_live surfaces s dm Hinv Hlive)
      as (s'' & Hrun & _ & Hlive' & _).
    left. congruence.
Qed.

(** C2: in every state the event loop can reach, all pointers to channel
    objects point to one object and the endpoint has at most one open
    channel; while a display manager is live every channel open, from any
    identity, is rejected with [EPERM] and changes nothing; an event leaves
    the live session in place unless it is the close of the live channel;
    and [OnChannelClose] for another channel leaves the slot alone. *)
Theorem single_display_manager (s : DisplayManagerService) :
  reachable s →
  (∀ a b, a ∈ channel_objects s → b ∈ channel_objects s → a = b) ∧
  (size (channels_ (endpoint_ s)) ≤ 1)%nat ∧
  (∀ dm euid cid new_object,
     display_manager_ s = Some dm →
     OnChannelOpen new_object
       (mkMessage euid cid None (OtherOp opcodes.CHANNEL_OPEN)) s =
       Returned (None, Some EPERM) s [] ∧
     deliver (ChannelOpen euid cid new_object) s =
       Some (Returned (Opened None (Some EPERM)) s [])) ∧
  (∀ dm ev r s' log,
     display_manager_ s = Some dm →
     deliver ev s = Some (Returned r s' log) →
     display_manager_ s' = Some dm ∨
     (display_manager_ s' = None ∧
      ∃ euid data,
        ev = ChannelClose euid (channel_id_ dm) ∧
        channels_ (endpoint_ s) !! channel_id_ dm = Some data ∧
        channel_state data = Some dm)) ∧
  (∀ dm message channel,
     display_manager_ s = Some dm →
     (channel ≠ Some dm → OnChannelClose message channel s = Returned tt s []) ∧
     (channel = Some dm →
      OnChannelClose message channel s =
        Returned tt (mkService None (display_service_ s) (endpoint_ s)) [])).
Proof.
  intros Hreach. pose proof (reachable_single_session s Hreach) as Hinv.
  split; [|split; [|split; [|split]]].
  - rewrite (channel_objects_single_session s Hinv).
    destruct (display_manager_ s) as [dm|]; intros a b Ha Hb.
    + apply elem_of_cons in Ha as [->|Ha], Hb as [->|Hb];
        repeat match goal with
               | H : _ ∈ [_] |- _ => apply list_elem_of_singleton in H as ->
               end; reflexivity.
    + by apply elem_of_nil in Ha.
  - unfold single_session in Hinv.
    destruct (display_manager_ s) as [dm|].
    + destruct Hinv as [bits ->]. rewrite map_size_singleton. lia.
    + rewrite Hinv, map_size_empty. lia.
  - intros dm euid cid a Hlive.
    assert (Hrej : is_Some (display_manager_ s) ∨ trusted_user euid = false)
      by (left; rewrite Hlive; eauto).
    split; [by apply OnChannelOpen_rejects | by apply deliver_open_rejected].
  - intros dm ev r s' log Hlive Hstep.
    by eapply deliver_keeps_or_closes.
  - intros dm message channel Hlive. split.
    + intros Hne. apply OnChannelClose_other. congruence.
    + intros ->. by apply OnChannelClose_live.
Qed.

End Admission.

Lemma OnChannelOpen_admission_witness :
  OnChannelOpen (platform := sample_platform) 4096
    (mkMessage AID_ROOT 7 None (OtherOp opcodes.CHANNEL_OPEN))
    (initial sample_display_service) =
  Returned (Some (mkDisplayManager 4096 7), None)
    (mkService (Some (mkDisplayManager 4096 7)) sample_display_service
       (mkEndpoint ∅)) [].
Proof.
  apply (proj1 (proj1 (proj2 (proj2
    (OnChannelOpen_admission (platform := sample_platform) 4096
       (mkMessage AID_ROOT 7 None (OtherOp opcodes.CHANNEL_OPEN))
       (initial sample_display_service)))))).
  intros [[d Hd] | Hu]; [discriminate Hd | discriminate Hu].
Defined.

(** The sample service after root opened channel 7. *)
Lemma sample_live_reachable :
  reachable (platform := sample_platform) sample_live.
Proof.
  apply (reachable_step (initial sample_display_service)
           (ChannelOpen AID_ROOT 7 4096)
           (Opened (Some (mkDisplayManager 4096 7)) None) sample_live []).
  - apply reachable_initial.
  - reflexivity.
Qed.

Lemma single_display_manager_witness :
  deliver (platform := sample_platform) (ChannelOpen 1000 8 8192) sample_live =
    Some (Returned (Opened None (Some EPERM)) sample_live []).
Proof.
  apply (proj2 (proj1 (proj2 (proj2
    (single_display_manager (platform := sample_platform) sample_live
       sample_live_reachable)))
    (mkDisplayManager 4096 7) 1000 8 8192 eq_refl)).
Defined.

(** ** Surface state and the notification flag *)

Section SurfaceStateFacts.
Context {platform : Platform}.

Lemma mark_seen_flags surface :
  surface_type surface = Application →
  update_flags (mark_seen surface) = 0.
Proof. intros Happ. unfold mark_seen. by rewrite decide_True. Qed.

Lemma SetNotificationsPending_disarms dm s s' log :
  SetNotificationsPending dm false s = Returned tt s' log →
  NotificationsPending (channel_id_ dm) s' = false.
Proof.
  destruct (channels_ (endpoint_ s) !! channel_id_ dm) as [data|] eqn:Hch.
  - rewrite (SetNotificationsPending_open _ _ _ _ Hch).
    intros [= <- _]. unfold NotificationsPending. simpl.
    rewrite lookup_insert_eq. simpl.
    rewrite POLLIN_bit, ModifyEvents_testbit by lia.
    by rewrite andb_false_r.
  - rewrite (SetNotificationsPending_unknown _ _ _ Hch).
    intros [= <- _]. unfold NotificationsPending. by rewrite Hch.
Qed.

(** C3: with a display manager live, [OnGetSurfaceState] returns, for any
    registry, a success status with one snapshot per application surface,
    in enumeration order and with the update flags as they were on entry
    (no surfaces: the empty list); afterwards every application surface
    has its update flags cleared, every other surface and everything else
    of the display service is as before, and the notification-pending
    flag of the live channel is false. *)
Theorem OnGetSurfaceState_snapshot (message : Message)
    (s : DisplayManagerService) (dm : DisplayManager) :
  display_manager_ s = Some dm →
  ∃ s' log,
    OnGetSurfaceState message s =
      Returned
        (OkStatus (snapshot <$> application_surfaces (display_service_ s)))
        s' log ∧
    display_manager_ s' = Some dm ∧
    surfaces_ (display_service_ s') =
      mark_seen <$> surfaces_ (display_service_ s) ∧
    named_buffers_ (display_service_ s') =
      named_buffers_ (display_service_ s) ∧
    (∀ surface,
       surface ∈ surfaces_ (display_service_ s') →
       surface_type surface = Application → update_flags surface = 0) ∧
    endpoint_ s' =
      (ModifyChannelEvents (channel_id_ dm) POLLIN 0 (endpoint_ s)).2 ∧
    NotificationsPending (channel_id_ dm) s' = false.
Proof.
  intros Hlive.
  destruct (OnGetSurfaceState_returns message s dm Hlive)
    as (s' & log & Hrun & Hset).
  exists s', log. split; [exact Hrun|].
  pose proof (SetNotificationsPending_disarms _ _ _ _ Hset) as Hflag.
  destruct (SetNotificationsPending_returns dm false
              (mkService (display_manager_ s)
                 (mkDisplayService (mark_seen <$> surfaces_ (display_service_ s))
                    (named_buffers_ (display_service_ s)))
                 (endpoint_ s))) as (ep & log' & Hset' & Hep).
  rewrite Hset in Hset'. injection Hset' as -> ->. simpl in *.
  repeat split; try done.
  intros surface Hin Happ.
  apply list_elem_of_fmap in Hin as (surface0 & -> & _).
  apply mark_seen_flags. unfold mark_seen in Happ.
  by destruct (decide (surface_type surface0 = Application)).
Qed.

(** C9: in every state the event loop can reach, no event that is
    delivered makes a handler dereference a null pointer; and an open
    channel at the endpoint, which is what a message needs to be
    delivered, implies that the live-session slot holds the object of that
    channel, so [OnGetSurfaceState] dereferences a pointer that is not null
    and returns, and so does the delivery of any message. *)
Theorem message_implies_live_channel (s : DisplayManagerService) :
  reachable s →
  (∀ ev, deliver ev s ≠ Some NullDereference) ∧
  (∀ euid cid data,
     channels_ (endpoint_ s) !! cid = Some data →
     ∃ dm,
       display_manager_ s = Some dm ∧
       channel_id_ dm = cid ∧
       channel_state data = Some dm ∧
       (∃ items s' log,
          OnGetSurfaceState
            (mkMessage euid cid (channel_state data) GetSurfaceState) s =
            Returned (OkStatus items) s' log) ∧
       (∀ request,
          ∃ r s' log,
            deliver (IncomingMessage euid cid request) s =
              Some (Returned (Replied r) s' log))).
Proof.
  intros Hreach.
  pose proof (reachable_single_session s Hreach) as Hinv.
  split.
  - intros ev.
    destruct (deliver_single_session ev s Hinv)
      as [Hnone|(r & s' & log & Hrun & _)]; congruence.
  - intros euid cid data Hopen.
    destruct (single_session_lookup _ _ _ Hinv Hopen)
      as (dm & Hlive & -> & Hstate & _).
    exists dm. repeat split; try done.
    + destruct (OnGetSurfaceState_returns
                  (mkMessage euid (channel_id_ dm) (channel_state data)
                     GetSurfaceState) s dm Hlive) as (s' & log & Hrun & _).
      by eexists _, _, _.
    + intros request.
      destruct (HandleMessage_single_session
                  (mkMessage euid (channel_id_ dm) (channel_state data) request)
                  s dm Hinv Hlive) as (r & s' & log & Hrun & _).
      simpl. rewrite Hopen. unfold bind. rewrite Hrun. unfold ret.
      by eexists _, _, _.
Qed.

End SurfaceStateFacts.

Lemma OnGetSurfaceState_snapshot_witness :
  ∃ s' log,
    OnGetSurfaceState
      (mkMessage 1000 7 (Some (mkDisplayManager 4096 7)) GetSurfaceState)
      sample_live =
      Returned
        (OkStatus
           [mkSurfaceState 1 100 10001 [(1, 1)] 3 [5; 6];
            mkSurfaceState 3 100 10001 [(1, 1)] 3 [5; 6]])
        s' log ∧
    NotificationsPending 7 s' = false.
Proof.
  destruct (OnGetSurfaceState_snapshot
              (mkMessage 1000 7 (Some (mkDisplayManager 4096 7)) GetSurfaceState)
              sample_live (mkDisplayManager 4096 7) eq_refl)
    as (s' & log & Hrun & _ & _ & _ & _ & _ & Hflag).
  exists s', log. split; [exact Hrun | exact Hflag].
Defined.

Lemma message_implies_live_channel_witness :
  ∃ dm, display_manager_ sample_live = Some dm ∧ channel_id_ dm = 7.
Proof.
  destruct (proj2 (message_implies_live_channel (platform := sample_platform)
                     sample_live sample_live_reachable)
              1000 7 (mkChannelData 0 (Some (mkDisplayManager 4096 7))) eq_refl)
    as (dm & Hlive & Hcid & _).
  exists dm. split; [exact Hlive | exact Hcid].
Defined.

Section NotificationFlag.
Context {platform : Platform}.

Lemma ModifyEvents_arm_again (bits : Z) :
  Z.testbit bits 0 = true → ModifyEvents 0 POLLIN bits = bits.
Proof.
  intros Hbit. apply Z.bits_inj'. intros n Hn.
  rewrite ModifyEvents_testbit by done.
  rewrite Z.bits_0, andb_true_r. unfold POLLIN.
  destruct (decide (n = 0)) as [->|Hne].
  - by rewrite Hbit.
  - rewrite (Z.bits_above_log2 1 n) by (simpl; lia). by rewrite orb_false_r.
Qed.

Lemma OnDisplaySurfaceChange_idle s :
  display_manager_ s = None → OnDisplaySurfaceChange s = Returned tt s [].
Proof.
  intros Hnone. unfold OnDisplaySurfaceChange. unfold_handlers.
  by rewrite Hnone.
Qed.

(** A surface change that finds the flag set leaves the endpoint as it
    is. *)
Lemma deliver_surface_change_pending surfaces s dm :
  single_session s →
  display_manager_ s = Some dm →
  NotificationsPending (channel_id_ dm) s = true →
  deliver (SurfaceChange surfaces) s =
    Some (Returned Notified
            (mkService (Some dm)
               (mkDisplayService surfaces (named_buffers_ (display_service_ s)))
               (endpoint_ s)) []).
Proof.
  intros Hinv Hlive Hflag.
  destruct (single_session_live _ _ Hinv Hlive) as [bits Hch].
  unfold NotificationsPending in Hflag. rewrite Hch in Hflag. simpl in Hflag.
  rewrite POLLIN_bit in Hflag.
  simpl. unfold OnDisplaySurfaceChange.
  unfold bind at 1. unfold set_surfaces.
  unfold bind at 1. unfold bind at 1. unfold get at 1. simpl. rewrite Hlive.
  erewrite SetNotificationsPending_open by exact Hch. simpl.
  rewrite ModifyEvents_arm_again by done.
  rewrite insert_id by done. unfold ret. rewrite ?Hlive.
  by destruct (endpoint_ s).
Qed.

(** One step of the bookkeeping: the flag of the live channel follows
    [unseen_change]. *)
Lemma deliver_tracks ev s r s' log unseen :
  single_session s →
  deliver ev s = Some (Returned r s' log) →
  (∀ dm, display_manager_ s = Some dm →
         NotificationsPending (channel_id_ dm) s = unseen) →
  ∀ dm, display_manager_ s' = Some dm →
        NotificationsPending (channel_id_ dm) s' = unseen_change ev r unseen.
Proof.
  intros Hinv Hstep Hflag dm' Hlive'.
  destruct ev as [euid cid a|euid cid|euid cid request|surfaces].
  - destruct (display_manager_ s) as [dm|] eqn:Hdm.
    + rewrite deliver_open_rejected in Hstep by (left; rewrite Hdm; eauto).
      injection Hstep as <- <- _. simpl. apply Hflag. congruence.
    + destruct (trusted_user euid) eqn:Ht.
      * rewrite deliver_open_accepted in Hstep by done.
        injection Hstep as <- <- _. simpl in *.
        injection Hlive' as <-. unfold NotificationsPending. simpl.
        by rewrite lookup_insert_eq.
      * rewrite deliver_open_rejected in Hstep by (by right).
        injection Hstep as <- <- _. congruence.
  - destruct (channels_ (endpoint_ s) !! cid) as [data|] eqn:Hopen.
    + rewrite (deliver_close _ _ _ _ Hopen) in Hstep.
      destruct (single_session_lookup _ _ _ Hinv Hopen)
        as (dm & Hlive & -> & Hstate & _).
      rewrite decide_True in Hstep by congruence.
      injection Hstep as _ <- _. discriminate Hlive'.
    + destruct (deliver_not_open euid cid s Hopen) as [_ Hno]. congruence.
  - destruct (channels_ (endpoint_ s) !! cid) as [data|] eqn:Hopen.
    + destruct (single_session_lookup _ _ _ Hinv Hopen)
        as (dm & Hlive & -> & Hstate & _).
      destruct (HandleMessage_single_session
                  (mkMessage euid (channel_id_ dm) (channel_state data) request)
                  s dm Hinv Hlive)
        as (r' & s'' & log' & Hrun & _ & Hlive'' & Hreq).
      simpl in Hstep. rewrite Hopen in Hstep.
      unfold bind in Hstep. rewrite Hrun in Hstep. unfold ret in Hstep.
      injection Hstep as <- <- _. simpl in Hreq.
      assert (dm' = dm) as -> by congruence.
      destruct request; simpl.
      * by destruct Hreq as [[items ->] ->].
      * destruct Hreq as [_ Hep]. unfold NotificationsPending.
        rewrite Hep. by apply Hflag.
      * destruct Hreq as [_ Hep]. unfold NotificationsPending.
        rewrite Hep. by apply Hflag.
      * destruct Hreq as [_ Hep]. unfold NotificationsPending.
        rewrite Hep. by apply Hflag.
      * destruct Hreq as [_ Hep]. unfold NotificationsPending.
        rewrite Hep. by apply Hflag.
    + destruct (deliver_not_open euid cid s Hopen) as [Hno _].
      rewrite Hno in Hstep. discriminate.
  - destruct (display_manager_ s) as [dm|] eqn:Hdm.
    + destruct (deliver_surface_change_live surfaces s dm Hinv Hdm)
        as (s'' & Hrun & _ & Hlive'' & _ & Hset).
      rewrite Hrun in Hstep. injection Hstep as _ <-.
      assert (dm' = dm) as -> by congruence. done.
    + rewrite deliver_surface_change_idle in Hstep by done.
      injection Hstep as _ <- _. discriminate Hlive'.
Qed.

Lemma run_cons ev rest st :
  run (ev :: rest) st =
    match deliver ev st.1 with
    | Some (Returned r s' _) => run rest (s', unseen_change ev r st.2)
    | _ => None
    end.
Proof. reflexivity. Qed.

Lemma run_tracks evs s unseen s' unseen' :
  single_session s →
  (∀ dm, display_manager_ s = Some dm →
         NotificationsPending (channel_id_ dm) s = unseen) →
  run evs (s, unseen) = Some (s', unseen') →
  single_session s' ∧
  ∀ dm, display_manager_ s' = Some dm →
        NotificationsPending (channel_id_ dm) s' = unseen'.
Proof.
  revert s unseen. induction evs as [|ev rest IH]; intros s unseen Hinv Hflag.
  - simpl. intros [= <- <-]. done.
  - rewrite run_cons. cbn [fst snd].
    destruct (deliver_single_session ev s Hinv)
      as [Hnone|(r & s1 & log & Hstep & Hinv1)].
    + by rewrite Hnone.
    + rewrite Hstep. apply IH; [done|].
      eapply (deliver_tracks ev s); eauto.
Qed.

Lemma run_surface_changes_pending s dm more :
  single_session s →
  display_manager_ s = Some dm →
  NotificationsPending (channel_id_ dm) s = true →
  ∃ s', run (SurfaceChange <$> more) (s, true) = Some (s', true) ∧
        display_manager_ s' = Some dm ∧
        endpoint_ s' = endpoint_ s.
Proof.
  revert s. induction more as [|surfaces more IH]; intros s Hinv Hlive Hflag.
  - exists s. done.
  - rewrite fmap_cons, run_cons. cbn [fst snd].
    rewrite (deliver_surface_change_pending surfaces s dm) by done.
    cbn [unseen_change]. set (s1 := mkService _ _ _).
    destruct (IH s1) as (s' & Hrun & Hlive' & Hep).
    + unfold single_session in *. simpl. by rewrite Hlive in Hinv.
    + done.
    + unfold NotificationsPending in *. done.
    + exists s'. done.
Qed.

(** C4: along every run of the event loop from the initial state, while a
    display manager is live its notification-pending flag is true exactly
    when a surface change happened after the channel was created and after
    its last GetSurfaceState call; any number of surface changes in a row
    on a live channel gives the flag and the endpoint state that the first
    of them gives; and with no display manager live the notifier does
    nothing. *)
Theorem notification_flag_tracks_changes :
  (∀ ds evs s unseen dm,
     run evs (initial ds, false) = Some (s, unseen) →
     display_manager_ s = Some dm →
     NotificationsPending (channel_id_ dm) s = unseen) ∧
  (∀ s dm unseen first more,
     reachable s →
     display_manager_ s = Some dm →
     ∃ s1 s',
       run [SurfaceChange first] (s, unseen) = Some (s1, true) ∧
       run (SurfaceChange <$> first :: more) (s, unseen) = Some (s', true) ∧
       NotificationsPending (channel_id_ dm) s1 = true ∧
       NotificationsPending (channel_id_ dm) s' = true ∧
       display_manager_ s' = Some dm ∧
       endpoint_ s' = endpoint_ s1) ∧
  (∀ s, display_manager_ s = None →
        OnDisplaySurfaceChange s = Returned tt s []).
Proof.
  split; [|split].
  - intros ds evs s unseen dm Hrun Hlive.
    destruct (run_tracks evs (initial ds) false s unseen) as [_ Hflag];
      [done | discriminate | done |].
    by apply Hflag.
  - intros s dm unseen first more Hreach Hlive.
    pose proof (reachable_single_session s Hreach) as Hinv.
    destruct (deliver_surface_change_live first s dm Hinv Hlive)
      as (s1 & Hstep & Hinv1 & Hlive1 & _ & Hflag1).
    destruct (run_surface_changes_pending s1 dm more Hinv1 Hlive1 Hflag1)
      as (s' & Hrun & Hlive' & Hep).
    exists s1, s'. rewrite fmap_cons, !run_cons. cbn [fst snd].
    rewrite Hstep. cbn [unseen_change run].
    repeat split; try done.
    unfold NotificationsPending in *. by rewrite Hep.
  - apply OnDisplaySurfaceChange_idle.
Qed.

End NotificationFlag.

Lemma notification_flag_tracks_changes_witness :
  NotificationsPending 7 sample_notified = true.
Proof.
  apply (proj1 (notification_flag_tracks_changes (platform := sample_platform))
           sample_display_service
           [ChannelOpen AID_ROOT 7 4096;
            IncomingMessage 1000 7 (GetSurfaceQueue 1 5);
            SurfaceChange (surfaces_ sample_display_service);
            SurfaceChange (surfaces_ sample_display_service)]
           sample_notified true (mkDisplayManager 4096 7)).
  - vm_compute. reflexivity.
  - reflexivity.
Defined.

(** ** The request handlers *)

Section Handlers.
Context {platform : Platform}.

Lemma GetDisplaySurface_None ds sid :
  GetDisplaySurface ds sid = None ↔
  ∀ surface, surface ∈ surfaces_ ds → surface_id surface ≠ sid.
Proof.
  unfold GetDisplaySurface. split.
  - intros Hfind surface Hin%list_elem_of_In Heq.
    pose proof (find_none _ _ Hfind surface Hin) as Hdec.
    by apply bool_decide_eq_false in Hdec.
  - intros Hall.
    destruct (find _ _) as [surface|] eqn:Hfind; [|done].
    apply find_some in Hfind as [Hin%list_elem_of_In Hdec].
    apply bool_decide_eq_true in Hdec. by destruct (Hall surface Hin).
Qed.

Lemma GetDisplaySurface_Some ds sid surface :
  GetDisplaySurface ds sid = Some surface →
  surface ∈ surfaces_ ds ∧ surface_id surface = sid.
Proof.
  unfold GetDisplaySurface.
  intros [Hin%list_elem_of_In Hdec%bool_decide_eq_true]%find_some. done.
Qed.

Lemma GetQueue_None surface qid :
  GetQueue surface qid = None ↔
  ∀ queue, queue ∈ consumer_queues_ surface → id queue ≠ qid.
Proof.
  unfold GetQueue. split.
  - intros Hfind queue Hin%list_elem_of_In Heq.
    pose proof (find_none _ _ Hfind queue Hin) as Hdec.
    by apply bool_decide_eq_false in Hdec.
  - intros Hall.
    destruct (find _ _) as [queue|] eqn:Hfind; [|done].
    apply find_some in Hfind as [Hin%list_elem_of_In Hdec].
    apply bool_decide_eq_true in Hdec. by destruct (Hall queue Hin).
Qed.

Lemma GetQueue_Some surface qid queue :
  GetQueue surface qid = Some queue →
  queue ∈ consumer_queues_ surface ∧ id queue = qid.
Proof.
  unfold GetQueue.
  intros [Hin%list_elem_of_In Hdec%bool_decide_eq_true]%find_some. done.
Qed.

(** C5: [OnGetSurfaceQueue] returns [EINVAL] when the registry has no
    surface with the id, when the surface it finds is not an application
    surface, and when that surface has no queue with the queue id; when the
    queue exists and creating the consumer handle fails, the failure is
    logged and its error status is returned; otherwise the handle is
    returned.  The service state is never changed. *)
Theorem OnGetSurfaceQueue_result (message : Message) (sid qid : Z)
    (s : DisplayManagerService) :
  let ds := display_service_ s in
  ((∀ surface, surface ∈ surfaces_ ds → surface_id surface ≠ sid) →
   OnGetSurfaceQueue message sid qid s = Returned (ErrorStatus EINVAL) s []) ∧
  (∀ surface,
     GetDisplaySurface ds sid = Some surface →
     surface_id surface = sid ∧ surface ∈ surfaces_ ds ∧
     (surface_type surface ≠ Application →
      OnGetSurfaceQueue message sid qid s =
        Returned (ErrorStatus EINVAL) s []) ∧
     (surface_type surface = Application →
      (∀ queue, queue ∈ consumer_queues_ surface → id queue ≠ qid) →
      OnGetSurfaceQueue message sid qid s =
        Returned (ErrorStatus EINVAL) s []) ∧
     (∀ queue,
        surface_type surface = Application →
        GetQueue surface qid = Some queue →
        id queue = qid ∧ queue ∈ consumer_queues_ surface ∧
        (∀ e, CreateConsumerQueueHandle queue = ErrorStatus e →
              OnGetSurfaceQueue message sid qid s =
                Returned (ErrorStatus e) s
                  [ALOGE
                     "DisplayManagerService::OnGetSurfaceQueue: Failed to create consumer queue for queue_id=%d: %s"
                     [ArgInt qid; ArgErrorMessage e]]) ∧
        (∀ handle, CreateConsumerQueueHandle queue = OkStatus handle →
                   OnGetSurfaceQueue message sid qid s =
                     Returned (OkStatus handle) s []))).
Proof.
  intros ds. split.
  - intros Hmissing%GetDisplaySurface_None.
    unfold OnGetSurfaceQueue. unfold_handlers. fold ds. by rewrite Hmissing.
  - intros surface Hfound.
    destruct (GetDisplaySurface_Some _ _ _ Hfound) as [Hin Hid].
    split; [done|]. split; [done|].
    unfold OnGetSurfaceQueue. unfold_handlers. fold ds. rewrite Hfound.
    split; [|split].
    + intros Hother. by rewrite bool_decide_eq_false_2.
    + intros Happ Hmissing%GetQueue_None.
      rewrite bool_decide_eq_true_2 by done. simpl. by rewrite Hmissing.
    + intros queue Happ Hqueue.
      destruct (GetQueue_Some _ _ _ Hqueue) as [Hqin Hqid].
      split; [done|]. split; [done|].
      rewrite bool_decide_eq_true_2 by done. simpl. rewrite Hqueue.
      split.
      * intros e ->. simpl. by rewrite Hqid.
      * intros handle ->. done.
Qed.

(** C6: from an untrusted identity [OnSetupNamedBuffer] returns [EPERM],
    logs the refusal and leaves the service state as it is, whatever the
    display service's [SetupNamedBuffer] would have done; from a trusted
    identity it returns the status of the display service's
    [SetupNamedBuffer] unchanged, and the named-buffer table that call
    leaves. *)
Theorem OnSetupNamedBuffer_gate (message : Message) (name : string)
    (size usage : Z) (s : DisplayManagerService) :
  let uid := GetEffectiveUserId message in
  (trusted_user uid = false →
   OnSetupNamedBuffer message name size usage s =
     Returned (ErrorStatus EPERM) s
       [ALOGE
          "DisplayService::SetupNamedBuffer: Named buffers may only be created by trusted UIDs: user_id=%d"
          [ArgInt uid]]) ∧
  (trusted_user uid = false →
   ∀ other : Platform,
     @IsTrustedUid other uid = @IsTrustedUid platform uid →
     @OnSetupNamedBuffer other message name size usage s =
       @OnSetupNamedBuffer platform message name size usage s) ∧
  (trusted_user uid = true →
   OnSetupNamedBuffer message name size usage s =
     let result :=
       DisplayService_SetupNamedBuffer name size usage
         (named_buffers_ (display_service_ s)) in
     Returned result.1
       (mkService (display_manager_ s)
          (mkDisplayService (surfaces_ (display_service_ s)) result.2)
          (endpoint_ s)) []).
Proof.
  intros uid. unfold OnSetupNamedBuffer. fold uid.
  split; [|split]; intros Htrust.
  - rewrite Htrust. unfold_handlers. reflexivity.
  - intros other Hsame.
    assert (Hother : @trusted_user other uid = false)
      by (unfold trusted_user in *; by rewrite Hsame).
    rewrite Htrust, Hother. reflexivity.
  - rewrite Htrust. simpl.
    by destruct (DisplayService_SetupNamedBuffer _ _ _ _).
Qed.

(** C7: [OnGetConfigurationData] returns [EINVAL] for a type that is none of
    the three enumerators; for each of the three it reads the property of
    that type, and returns [ENOENT] when the property gives the empty path,
    the [errno] of the read when reading the file fails, and the data read
    when it succeeds.  The state does not change. *)
Theorem OnGetConfigurationData_result (message : Message) (config_type : Z)
    (s : DisplayManagerService) :
  (config_type ≠ ConfigFileType.kLensMetrics →
   config_type ≠ ConfigFileType.kDeviceMetrics →
   config_type ≠ ConfigFileType.kDeviceConfiguration →
   OnGetConfigurationData message config_type s =
     Returned (ErrorStatus EINVAL) s []) ∧
  (∀ property_name,
     (config_type = ConfigFileType.kLensMetrics ∧
        property_name = "ro.dvr.lens_metrics") ∨
     (config_type = ConfigFileType.kDeviceMetrics ∧
        property_name = "ro.dvr.device_metrics") ∨
     (config_type = ConfigFileType.kDeviceConfiguration ∧
        property_name = "ro.dvr.device_configuration") →
     let file_path := GetProperty property_name "" in
     (file_path = "" →
      OnGetConfigurationData message config_type s =
        Returned (ErrorStatus ENOENT) s []) ∧
     (∀ data errno,
        file_path ≠ "" →
        ReadFileToString file_path = (false, data, errno) →
        OnGetConfigurationData message config_type s =
          Returned (ErrorStatus errno) s []) ∧
     (∀ data errno,
        file_path ≠ "" →
        ReadFileToString file_path = (true, data, errno) →
        OnGetConfigurationData message config_type s =
          Returned (OkStatus data) s [])).
Proof.
  split.
  - intros H1 H2 H3. unfold OnGetConfigurationData, property_name_of.
    by rewrite !decide_False.
  - intros property_name Hmapped file_path.
    assert (Hname : property_name_of config_type = Some property_name).
    { destruct Hmapped as [[-> ->]|[[-> ->]|[-> ->]]]; reflexivity. }
    unfold OnGetConfigurationData. rewrite Hname. fold file_path.
    split; [|split].
    + intros ->. reflexivity.
    + intros data errno Hpath ->.
      by rewrite bool_decide_eq_false_2.
    + intros data errno Hpath ->.
      by rewrite bool_decide_eq_false_2.
Qed.

(** C10: two messages that differ at most in the effective user id get the
    same reply, the same state and the same log from [HandleMessage] when
    the request is GetSurfaceState, GetSurfaceQueue or
    GetConfigurationData, in every state; for SetupNamedBuffer the
    identity decides the reply as soon as one sender is trusted and the
    other is not. *)
Theorem HandleMessage_identity_blind (m1 m2 : Message)
    (s : DisplayManagerService) :
  same_up_to_identity m1 m2 →
  (identity_blind (GetRequest m1) = true →
   HandleMessage m1 s = HandleMessage m2 s) ∧
  (identity_blind (GetRequest m1) = true →
   deliver (IncomingMessage (GetEffectiveUserId m1) (GetChannelId m1)
              (GetRequest m1)) s =
   deliver (IncomingMessage (GetEffectiveUserId m2) (GetChannelId m2)
              (GetRequest m2)) s) ∧
  (∀ name size usage,
     GetRequest m1 = SetupNamedBuffer name size usage →
     trusted_user (GetEffectiveUserId m1) = false →
     trusted_user (GetEffectiveUserId m2) = true →
     (∃ log, HandleMessage m1 s =
               Returned (ReplyNamedBuffer (ErrorStatus EPERM)) s log) ∧
     (∃ s', HandleMessage m2 s =
              Returned
                (ReplyNamedBuffer
                   (DisplayService_SetupNamedBuffer name size usage
                      (named_buffers_ (display_service_ s))).1) s' [])).
Proof.
  intros (Hcid & Hch & Hreq). split; [|split].
  - intros Hblind. unfold HandleMessage. rewrite <- Hreq.
    destruct (GetRequest m1); try discriminate Hblind; reflexivity.
  - intros Hblind. rewrite <- Hreq, <- Hcid.
    unfold deliver, HandleMessage. cbn [GetRequest].
    destruct (GetRequest m1); try discriminate Hblind; reflexivity.
  - intros name size usage Hsetup Huntrusted Htrusted.
    unfold HandleMessage. rewrite <- Hreq, Hsetup.
    unfold bind, OnSetupNamedBuffer. rewrite Huntrusted, Htrusted. simpl.
    split.
    + unfold_handlers. by eexists.
    + destruct (DisplayService_SetupNamedBuffer _ _ _ _). by eexists.
Qed.

End Handlers.

Lemma OnGetSurfaceQueue_result_witness :
  OnGetSurfaceQueue (platform := sample_platform)
    (mkMessage 1000 7 (Some (mkDisplayManager 4096 7)) (GetSurfaceQueue 1 5))
    1 5 sample_live =
  Returned (OkStatus 77) sample_live [].
Proof.
  destruct (proj2 (OnGetSurfaceQueue_result (platform := sample_platform)
              (mkMessage 1000 7 (Some (mkDisplayManager 4096 7))
                 (GetSurfaceQueue 1 5)) 1 5 sample_live)
              (sample_surface 1 Application) eq_refl)
    as (_ & _ & _ & _ & Hqueue).
  destruct (Hqueue (mkQueue 5) eq_refl eq_refl) as (_ & _ & _ & Hok).
  exact (Hok 77 eq_refl).
Defined.

Lemma OnSetupNamedBuffer_gate_witness :
  OnSetupNamedBuffer (platform := sample_platform)
    (mkMessage 5000 7 (Some (mkDisplayManager 4096 7))
       (SetupNamedBuffer "pose" 64 0))
    "pose" 64 0 sample_live =
  Returned (ErrorStatus EPERM) sample_live
    [ALOGE
       "DisplayService::SetupNamedBuffer: Named buffers may only be created by trusted UIDs: user_id=%d"
       [ArgInt 5000]].
Proof.
  exact (proj1 (OnSetupNamedBuffer_gate (platform := sample_platform)
                  (mkMessage 5000 7 (Some (mkDisplayManager 4096 7))
                     (SetupNamedBuffer "pose" 64 0))
                  "pose" 64 0 sample_live) eq_refl).
Defined.

Lemma OnGetConfigurationData_result_witness :
  OnGetConfigurationData (platform := sample_platform)
    (mkMessage 5000 7 (Some (mkDisplayManager 4096 7))
       (GetConfigurationData ConfigFileType.kDeviceMetrics))
    ConfigFileType.kDeviceMetrics sample_live =
  Returned (OkStatus "blob") sample_live [].
Proof.
  destruct (proj2 (OnGetConfigurationData_result (platform := sample_platform)
              (mkMessage 5000 7 (Some (mkDisplayManager 4096 7))
                 (GetConfigurationData ConfigFileType.kDeviceMetrics))
              ConfigFileType.kDeviceMetrics sample_live)
              "ro.dvr.device_metrics"
              (or_intror (or_introl (conj eq_refl eq_refl))))
    as (_ & _ & Hok).
  apply (Hok "blob" 0); [discriminate | reflexivity].
Defined.

Lemma HandleMessage_identity_blind_witness :
  HandleMessage (platform := sample_platform)
    (mkMessage AID_ROOT 7 (Some (mkDisplayManager 4096 7)) (GetSurfaceQueue 1 5))
    sample_live =
  HandleMessage (platform := sample_platform)
    (mkMessage 5000 7 (Some (mkDisplayManager 4096 7)) (GetSurfaceQueue 1 5))
    sample_live.
Proof.
  apply (proj1 (HandleMessage_identity_blind (platform := sample_platform)
                  (mkMessage AID_ROOT 7 (Some (mkDisplayManager 4096 7))
                     (GetSurfaceQueue 1 5))
                  (mkMessage 5000 7 (Some (mkDisplayManager 4096 7))
                     (GetSurfaceQueue 1 5))
                  sample_live (conj eq_refl (conj eq_refl eq_refl)))).
  reflexivity.
Defined.

(** ** The readiness toggle *)

Lemma testbit_POLLIN_above (n : Z) : 0 < n → Z.testbit POLLIN n = false.
Proof. intros Hn. unfold POLLIN. apply Z.bits_above_log2; simpl; lia. Qed.

(** C8, as amended: on a channel that is open at the endpoint,
    [SetNotificationsPending] makes the readable bit of the channel equal to
    [pending] and leaves every other readiness bit, the writable one
    included, as it was; it logs nothing then.  On a channel the endpoint
    does not know the call fails, the failure is logged, and nothing
    changes.  In both cases the method returns normally, with the
    live-session slot and the display service untouched, and a
    GetSurfaceState request whose toggle fails is still answered with a
    success status. *)
Theorem SetNotificationsPending_toggle (dm : DisplayManager) (pending : bool)
    (s : DisplayManagerService) :
  (∀ data,
     channels_ (endpoint_ s) !! channel_id_ dm = Some data →
     ∃ bits',
       SetNotificationsPending dm pending s =
         Returned tt
           (mkService (display_manager_ s) (display_service_ s)
              (mkEndpoint
                 (<[channel_id_ dm := mkChannelData bits' (channel_state data)]>
                    (channels_ (endpoint_ s))))) [] ∧
       bits' = (if pending then Z.lor (event_bits data) POLLIN
                else Z.land (event_bits data) (Z.lnot POLLIN)) ∧
       negb (Z.land bits' POLLIN =? 0) = pending ∧
       (∀ n, 0 < n → Z.testbit bits' n = Z.testbit (event_bits data) n)) ∧
  (channels_ (endpoint_ s) !! channel_id_ dm = None →
   SetNotificationsPending dm pending s =
     Returned tt s
       [ALOGE
          "DisplayManager::SetNotificationPending: Failed to modify channel events: %s"
          [ArgErrorMessage EINVAL]]) ∧
  (∃ s' log,
     SetNotificationsPending dm pending s = Returned tt s' log ∧
     display_manager_ s' = display_manager_ s ∧
     display_service_ s' = display_service_ s) ∧
  (display_manager_ s = Some dm →
   channels_ (endpoint_ s) !! channel_id_ dm = None →
   ∀ message,
     ∃ s' log,
       OnGetSurfaceState message s =
         Returned
           (OkStatus (snapshot <$> application_surfaces (display_service_ s)))
           s' log).
Proof.
  split; [|split; [|split]].
  - intros data Hopen.
    rewrite (SetNotificationsPending_open _ _ _ _ Hopen).
    eexists. split; [reflexivity|].
    assert (Hbits :
      ModifyEvents (if pending then 0 else POLLIN)
        (if pending then POLLIN else 0) (event_bits data) =
      if pending then Z.lor (event_bits data) POLLIN
      else Z.land (event_bits data) (Z.lnot POLLIN)).
    { unfold ModifyEvents. destruct pending.
      - by rewrite Z.lnot_0, Z.land_m1_r.
      - by rewrite Z.lor_0_r. }
    split; [exact Hbits|]. split.
    + rewrite POLLIN_bit, ModifyEvents_testbit by lia.
      destruct pending; simpl; [by rewrite orb_true_r|].
      by rewrite andb_false_r.
    + intros n Hn. rewrite ModifyEvents_testbit by lia.
      destruct pending.
      * by rewrite Z.bits_0, testbit_POLLIN_above, andb_true_r, orb_false_r.
      * by rewrite Z.bits_0, testbit_POLLIN_above, andb_true_r, orb_false_r.
  - apply SetNotificationsPending_unknown.
  - destruct (SetNotificationsPending_returns dm pending s)
      as (ep & log & Hrun & _).
    by eexists _, _.
  - intros Hlive _ message.
    destruct (OnGetSurfaceState_returns message s dm Hlive)
      as (s' & log & Hrun & _).
    by eexists _, _.
Qed.

(** C8, as the specification words it, does not hold: arming the
    notification on a channel whose writable bit is set leaves that bit
    set. *)
Lemma SetNotificationsPending_keeps_writable :
  ¬ (∀ (dm : DisplayManager) (pending : bool) (s : DisplayManagerService)
       (data : ChannelData),
       channels_ (endpoint_ s) !! channel_id_ dm = Some data →
       ∃ s' log data',
         SetNotificationsPending dm pending s = Returned tt s' log ∧
         channels_ (endpoint_ s') !! channel_id_ dm = Some data' ∧
         two_signal_toggle pending (event_bits data')).
Proof.
  intros Hclaim.
  destruct (Hclaim (mkDisplayManager 4096 7) true sample_writable
              (mkChannelData POLLOUT (Some (mkDisplayManager 4096 7))) eq_refl)
    as (s' & log & data' & Hrun & Hdata & _ & Hwritable).
  vm_compute in Hrun. injection Hrun as <- _.
  vm_compute in Hdata. injection Hdata as <-.
  vm_compute in Hwritable. discriminate Hwritable.
Qed.

Lemma SetNotificationsPending_toggle_witness :
  ∃ bits',
    SetNotificationsPending (mkDisplayManager 4096 7) true sample_writable =
      Returned tt
        (mkService (Some (mkDisplayManager 4096 7)) sample_display_service
           (mkEndpoint
              (<[7 := mkChannelData bits' (Some (mkDisplayManager 4096 7))]>
                 {[7 := mkChannelData POLLOUT (Some (mkDisplayManager 4096 7))]})))
        [] ∧
    bits' = 5.
Proof.
  destruct (proj1 (SetNotificationsPending_toggle (mkDisplayManager 4096 7) true
                     sample_writable)
              (mkChannelData POLLOUT (Some (mkDisplayManager 4096 7))) eq_refl)
    as (bits' & Hrun & Hbits & _).
  exists bits'. split; [exact Hrun | exact Hbits].
Defined.

(** ** The scenario of the specification, run on the sample platform *)

(** Root opens channel 7 and is accepted; with no surface registered,
    GetSurfaceState returns the empty list and the flag is false. *)
Example scenario_root_polls_empty_registry :
  match run (platform := sample_platform)
          [ChannelOpen AID_ROOT 7 4096; IncomingMessage AID_ROOT 7 GetSurfaceState]
          (initial (mkDisplayService [] ∅), false) with
  | Some (s, unseen) =>
      display_manager_ s = Some (mkDisplayManager 4096 7) ∧
      NotificationsPending 7 s = false ∧ unseen = false
  | None => False
  end ∧
  deliver (platform := sample_platform)
    (IncomingMessage AID_ROOT 7 GetSurfaceState)
    (mkService (Some (mkDisplayManager 4096 7)) (mkDisplayService [] ∅)
       (mkEndpoint {[7 := mkChannelData 0 (Some (mkDisplayManager 4096 7))]})) =
  Some (Returned (Replied (ReplySurfaceState (OkStatus [])))
          (mkService (Some (mkDisplayManager 4096 7)) (mkDisplayService [] ∅)
             (mkEndpoint {[7 := mkChannelData 0 (Some (mkDisplayManager 4096 7))]}))
          []).
Proof. vm_compute. done. Qed.

(** A second open, from the untrusted uid 5000, is rejected with [EPERM]
    while the channel of root is live, and after it closed; root may open
    again. *)
Example scenario_second_open :
  deliver (platform := sample_platform) (ChannelOpen 5000 8 8192) sample_live =
    Some (Returned (Opened None (Some EPERM)) sample_live []) ∧
  deliver (platform := sample_platform) (ChannelClose AID_ROOT 7) sample_live =
    Some (Returned Closed (initial sample_display_service) []) ∧
  deliver (platform := sample_platform) (ChannelOpen 5000 8 8192)
    (initial sample_display_service) =
    Some (Returned (Opened None (Some EPERM)) (initial sample_display_service) []) ∧
  deliver (platform := sample_platform) (ChannelOpen AID_ROOT 9 4096)
    (initial sample_display_service) =
    Some (Returned (Opened (Some (mkDisplayManager 4096 9)) None)
            (mkService (Some (mkDisplayManager 4096 9)) sample_display_service
               (mkEndpoint
                  {[9 := mkChannelData 0 (Some (mkDisplayManager 4096 9))]}))
            []).
Proof. vm_compute. done. Qed.

(** A surface change arms the live channel; GetSurfaceState returns the two
    application surfaces with their flags and disarms it. *)
Example scenario_change_then_poll :
  match run (platform := sample_platform)
          [SurfaceChange (surfaces_ sample_display_service);
           IncomingMessage 1000 7 GetSurfaceState]
          (sample_live, false) with
  | Some (s, unseen) =>
      update_flags <$> surfaces_ (display_service_ s) = [0; 3; 0] ∧
      NotificationsPending 7 s = false ∧ unseen = false
  | None => False
  end ∧
  NotificationsPending 7 sample_notified = true.
Proof. vm_compute. done. Qed.

(** Outside the reachable states: with the slot empty the handler
    dereferences a null pointer, and with a channel the endpoint does not
    know the failed toggle is logged and the request still succeeds. *)
Example scenario_unreachable_states :
  OnGetSurfaceState (mkMessage AID_ROOT 7 None GetSurfaceState)
    (initial sample_display_service) = NullDereference ∧
  ∃ s',
    OnGetSurfaceState (mkMessage AID_ROOT 7 None GetSurfaceState)
      sample_detached =
      Returned
        (OkStatus
           [mkSurfaceState 1 100 10001 [(1, 1)] 3 [5; 6];
            mkSurfaceState 3 100 10001 [(1, 1)] 3 [5; 6]])
        s'
        [ALOGE
           "DisplayManager::SetNotificationPending: Failed to modify channel events: %s"
           [ArgErrorMessage EINVAL]].
Proof. split; [reflexivity|]. eexists. vm_compute. reflexivity. Qed.

(** ** Further facts about the endpoint and the handlers *)

Lemma ModifyChannelEvents_alter channel_id clear_mask set_mask ep :
  channels_ (ModifyChannelEvents channel_id clear_mask set_mask ep).2 =
    alter (modify_channel_data clear_mask set_mask) channel_id (channels_ ep).
Proof.
  unfold ModifyChannelEvents.
  destruct (channels_ ep !! channel_id) as [data|] eqn:Hch; simpl.
  - apply map_eq. intros cid. rewrite lookup_alter.
    destruct (decide (channel_id = cid)) as [<-|Hne].
    + by rewrite lookup_insert_eq, Hch.
    + by rewrite lookup_insert_ne.
  - by rewrite alter_id'.
Qed.

Lemma ModifyEvents_last_wins (p1 p2 : bool) (bits : Z) :
  ModifyEvents (if p2 then 0 else POLLIN) (if p2 then POLLIN else 0)
    (ModifyEvents (if p1 then 0 else POLLIN) (if p1 then POLLIN else 0) bits) =
  ModifyEvents (if p2 then 0 else POLLIN) (if p2 then POLLIN else 0) bits.
Proof.
  apply Z.bits_inj'. intros n Hn.
  rewrite !ModifyEvents_testbit by done.
  destruct p1, p2; rewrite ?Z.bits_0; simpl;
    destruct (Z.testbit bits n), (Z.testbit POLLIN n); reflexivity.
Qed.

Lemma mark_seen_surface_id surface :
  surface_id (mark_seen surface) = surface_id surface.
Proof. unfold mark_seen. by destruct (decide _). Qed.

Lemma mark_seen_surface_type surface :
  surface_type (mark_seen surface) = surface_type surface.
Proof. unfold mark_seen. by destruct (decide _). Qed.

Lemma mark_seen_queues surface :
  consumer_queues_ (mark_seen surface) = consumer_queues_ surface.
Proof. unfold mark_seen. by destruct (decide _). Qed.

Lemma mark_seen_idempotent surface :
  mark_seen (mark_seen surface) = mark_seen surface.
Proof.
  unfold mark_seen.
  destruct (decide (surface_type surface = Application)) as [Happ|Hother].
  - simpl. by rewrite decide_True.
  - by rewrite decide_False.
Qed.

Lemma application_surfaces_mark_seen (surfaces : list DisplaySurface) :
  filter (fun surface => surface_type surface = Application)
    (mark_seen <$> surfaces) =
  mark_seen <$>
    filter (fun surface => surface_type surface = Application) surfaces.
Proof.
  induction surfaces as [|surface rest IH]; [done|].
  rewrite fmap_cons, !filter_cons, mark_seen_surface_type.
  destruct (decide (surface_type surface = Application)).
  - by rewrite fmap_cons, IH.
  - exact IH.
Qed.

Lemma find_unique_surface (surfaces : list DisplaySurface) surface :
  NoDup (surface_id <$> surfaces) →
  surface ∈ surfaces →
  List.find (fun s => bool_decide (surface_id s = surface_id surface)) surfaces =
    Some surface.
Proof.
  induction surfaces as [|first rest IH]; intros Hnodup Hin.
  - by apply elem_of_nil in Hin.
  - rewrite fmap_cons in Hnodup. apply NoDup_cons in Hnodup as [Hfresh Hnodup].
    simpl. apply elem_of_cons in Hin as [->|Hin].
    + by rewrite bool_decide_eq_true_2.
    + rewrite bool_decide_eq_false_2; [by apply IH|].
      intros Heq. apply Hfresh. rewrite Heq.
      by apply list_elem_of_fmap_2.
Qed.

Lemma GetQueue_member surface queue :
  queue ∈ consumer_queues_ surface →
  ∃ found, GetQueue surface (id queue) = Some found ∧ id found = id queue.
Proof.
  intros Hin. destruct (GetQueue surface (id queue)) as [found|] eqn:Hfind.
  - exists found. split; [done|].
    unfold GetQueue in Hfind.
    apply find_some in Hfind as [_ Hdec%bool_decide_eq_true]. done.
  - unfold GetQueue in Hfind.
    pose proof (find_none _ _ Hfind queue (proj1 (list_elem_of_In _ _) Hin)) as Hdec.
    by apply bool_decide_eq_false in Hdec.
Qed.

Section MoreMethodFacts.
Context {platform : Platform}.

(** A message that is not GetSurfaceState returns whatever the state. *)
Lemma HandleMessage_returns_or_null message s :
  (∃ r s' log, HandleMessage message s = Returned r s' log) ∨
  (HandleMessage message s = NullDereference ∧
   GetRequest message = GetSurfaceState ∧ display_manager_ s = None).
Proof.
  unfold HandleMessage.
  destruct (GetRequest message) as [|sid qid|name size usage|ty|op].
  - destruct (display_manager_ s) as [dm|] eqn:Hdm.
    + destruct (OnGetSurfaceState_returns message s dm Hdm)
        as (s' & log & Hrun & _).
      left. unfold bind. rewrite Hrun. unfold ret. by eexists _, _, _.
    + right. unfold bind. by rewrite OnGetSurfaceState_null.
  - destruct (OnGetSurfaceQueue_pure message sid qid s) as (r & log & Hrun).
    left. unfold bind. rewrite Hrun. unfold ret. by eexists _, _, _.
  - destruct (OnSetupNamedBuffer_frame message name size usage s)
      as (r & s' & log & Hrun & _).
    left. unfold bind. rewrite Hrun. unfold ret. by eexists _, _, _.
  - destruct (OnGetConfigurationData_pure message ty s) as (r & Hrun).
    left. unfold bind. rewrite Hrun. unfold ret. by eexists _, _, _.
  - left. unfold ret. by eexists _, _, _.
Qed.

Lemma ModifyChannelEvents_channel_state channel_id clear_mask set_mask ep cid :
  channel_state <$>
    (channels_ (ModifyChannelEvents channel_id clear_mask set_mask ep).2 !! cid) =
  channel_state <$> (channels_ ep !! cid).
Proof.
  rewrite ModifyChannelEvents_alter, lookup_alter.
  destruct (decide (channel_id = cid)) as [<-|Hne]; [|done].
  by destruct (channels_ ep !! channel_id).
Qed.

(** What a message that returns leaves in place, in any state. *)
Lemma HandleMessage_frame message s r s' log :
  HandleMessage message s = Returned r s' log →
  display_manager_ s' = display_manager_ s ∧
  (∀ cid,
     channel_state <$> (channels_ (endpoint_ s') !! cid) =
     channel_state <$> (channels_ (endpoint_ s) !! cid)) ∧
  reply_matches (GetRequest message) r.
Proof.
  unfold HandleMessage.
  destruct (GetRequest message) as [|sid qid|name size usage|ty|op].
  - destruct (display_manager_ s) as [dm|] eqn:Hdm.
    + destruct (OnGetSurfaceState_returns message s dm Hdm)
        as (s1 & log1 & Hrun & Hset).
      destruct (SetNotificationsPending_returns dm false
                  (mkService (display_manager_ s)
                     (mkDisplayService
                        (mark_seen <$> surfaces_ (display_service_ s))
                        (named_buffers_ (display_service_ s)))
                     (endpoint_ s))) as (ep & log2 & Hset' & Hep).
      rewrite Hset in Hset'. injection Hset' as -> ->. simpl in Hep.
      unfold bind. rewrite Hrun. unfold ret. intros [= <- <- _]. simpl.
      split; [done|]. split; [|done].
      intros cid. rewrite Hep. apply ModifyChannelEvents_channel_state.
    + unfold bind. by rewrite OnGetSurfaceState_null.
  - destruct (OnGetSurfaceQueue_pure message sid qid s) as (r' & log' & Hrun).
    unfold bind. rewrite Hrun. unfold ret. by intros [= <- <- _].
  - destruct (OnSetupNamedBuffer_frame message name size usage s)
      as (r' & s1 & log' & Hrun & Hdm & Hep & _).
    unfold bind. rewrite Hrun. unfold ret. intros [= <- <- _].
    by rewrite Hep.
  - destruct (OnGetConfigurationData_pure message ty s) as (r' & Hrun).
    unfold bind. rewrite Hrun. unfold ret. by intros [= <- <- _].
  - unfold ret. by intros [= <- <- _].
Qed.

End MoreMethodFacts.

(** ** Further properties of the methods *)

Section MoreProperties.
Context {platform : Platform}.

(** The whole outcome of the toggle, in any state. *)
Lemma SetNotificationsPending_outcome dm pending s :
  SetNotificationsPending dm pending s =
    Returned tt
      (mkService (display_manager_ s) (display_service_ s)
         (mkEndpoint
            (alter
               (modify_channel_data (if pending then 0 else POLLIN)
                  (if pending then POLLIN else 0))
               (channel_id_ dm) (channels_ (endpoint_ s)))))
      (match channels_ (endpoint_ s) !! channel_id_ dm with
       | Some _ => []
       | None =>
           [ALOGE
              "DisplayManager::SetNotificationPending: Failed to modify channel events: %s"
              [ArgErrorMessage EINVAL]]
       end).
Proof.
  rewrite <- ModifyChannelEvents_alter.
  destruct (channels_ (endpoint_ s) !! channel_id_ dm) as [data|] eqn:Hch.
  - rewrite (SetNotificationsPending_open _ _ _ _ Hch).
    unfold ModifyChannelEvents. by rewrite Hch.
  - rewrite (SetNotificationsPending_unknown _ _ _ Hch).
    unfold ModifyChannelEvents. rewrite Hch. simpl.
    destruct s as [slot ds [channels]]. done.
Qed.

Lemma modify_channel_data_last_wins (p1 p2 : bool) data :
  modify_channel_data (if p2 then 0 else POLLIN) (if p2 then POLLIN else 0)
    (modify_channel_data (if p1 then 0 else POLLIN)
       (if p1 then POLLIN else 0) data) =
  modify_channel_data (if p2 then 0 else POLLIN) (if p2 then POLLIN else 0)
    data.
Proof.
  unfold modify_channel_data. simpl. by rewrite ModifyEvents_last_wins.
Qed.

(** X1: [HandleMessage] dereferences a null pointer exactly for a
    GetSurfaceState request that finds the live-session slot empty.  A
    message that returns never changes the slot, never opens or closes a
    channel at the endpoint nor changes the object of one, and is answered
    with the reply of its own request (an unknown opcode goes to the
    default handler with the opcode it came with). *)
Theorem HandleMessage_keeps_session (message : Message)
    (s : DisplayManagerService) :
  (HandleMessage message s = NullDereference ↔
     GetRequest message = GetSurfaceState ∧ display_manager_ s = None) ∧
  (∀ r s' log,
     HandleMessage message s = Returned r s' log →
     display_manager_ s' = display_manager_ s ∧
     dom (channels_ (endpoint_ s')) = dom (channels_ (endpoint_ s)) ∧
     (∀ cid,
        channel_state <$> (channels_ (endpoint_ s') !! cid) =
        channel_state <$> (channels_ (endpoint_ s) !! cid)) ∧
     reply_matches (GetRequest message) r).
Proof.
  split.
  - split.
    + intros Hnull.
      destruct (HandleMessage_returns_or_null message s)
        as [(r & s' & log & Hrun)|(_ & Hreq & Hslot)]; [congruence | done].
    + intros [Hreq Hslot]. unfold HandleMessage. rewrite Hreq.
      unfold bind. by rewrite OnGetSurfaceState_null.
  - intros r s' log Hrun.
    destruct (HandleMessage_frame _ _ _ _ _ Hrun) as (Hslot & Hobjects & Hreply).
    repeat split; try done.
    apply set_eq. intros cid. rewrite !elem_of_dom.
    rewrite <- !(fmap_is_Some channel_state). by rewrite Hobjects.
Qed.

(** X2: opening a channel and closing it again is a round trip.  From a
    state with no display manager and no channel [cid] at the endpoint, a
    trusted open is accepted and the close of that channel, whoever sends
    it, gives back exactly the state before the open. *)
Theorem channel_open_close_round_trip (s : DisplayManagerService)
    (euid euid' cid new_object : Z) :
  display_manager_ s = None →
  trusted_user euid = true →
  channels_ (endpoint_ s) !! cid = None →
  ∃ s1,
    deliver (ChannelOpen euid cid new_object) s =
      Some (Returned (Opened (Some (mkDisplayManager new_object cid)) None)
              s1 []) ∧
    display_manager_ s1 = Some (mkDisplayManager new_object cid) ∧
    deliver (ChannelClose euid' cid) s1 = Some (Returned Closed s []).
Proof.
  intros Hnone Htrusted Hfresh.
  rewrite (deliver_open_accepted _ _ _ _ Hnone Htrusted).
  eexists. split; [reflexivity|]. split; [reflexivity|].
  erewrite deliver_close by (simpl; apply lookup_insert_eq).
  simpl. rewrite decide_True by done.
  rewrite delete_insert_id by done.
  destruct s as [slot ds [channels]]. simpl in *. by rewrite Hnone.
Qed.

(** X3: polling twice.  After a GetSurfaceState call returned, a second
    call changes nothing: it returns the same surfaces, in the same order,
    every one with update flags zero, and leaves the state (and the log
    line of a failing toggle) as the first call left it. *)
Theorem OnGetSurfaceState_second_poll (m1 m2 : Message)
    (s s' : DisplayManagerService) (r : Status (list SurfaceState))
    (log : list LogLine) :
  OnGetSurfaceState m1 s = Returned r s' log →
  ∃ items',
    OnGetSurfaceState m2 s' = Returned (OkStatus items') s' log ∧
    (∀ item, item ∈ items' → st_update_flags item = 0) ∧
    match r with
    | OkStatus items =>
        st_surface_id <$> items' = st_surface_id <$> items ∧
        st_queue_ids <$> items' = st_queue_ids <$> items
    | ErrorStatus _ => False
    end.
Proof.
  intros Hrun.
  destruct (display_manager_ s) as [dm|] eqn:Hdm;
    [|by rewrite OnGetSurfaceState_null in Hrun].
  destruct (OnGetSurfaceState_returns m1 s dm Hdm) as (s1 & log1 & Hrun1 & Hset).
  rewrite Hrun in Hrun1. injection Hrun1 as -> <- <-.
  rewrite SetNotificationsPending_outcome in Hset. simpl in Hset.
  injection Hset as <- <-.
  set (s' := mkService _ _ _).
  destruct (OnGetSurfaceState_returns m2 s' dm Hdm)
    as (s2 & log2 & Hrun2 & Hset2).
  rewrite SetNotificationsPending_outcome in Hset2. simpl in Hset2.
  rewrite <- list_fmap_compose in Hset2.
  rewrite (list_fmap_ext (mark_seen ∘ mark_seen) mark_seen) in Hset2
    by (intros ? surface _; apply mark_seen_idempotent).
  rewrite alter_alter_eq in Hset2.
  rewrite (alter_ext _ (modify_channel_data POLLIN 0)) in Hset2
    by (intros data _; apply (modify_channel_data_last_wins false false)).
  rewrite lookup_alter_eq in Hset2.
  assert (Hlogs :
    match
      modify_channel_data POLLIN 0 <$>
        channels_ (endpoint_ s) !! channel_id_ dm
    with
    | Some _ => []
    | None =>
        [ALOGE
           "DisplayManager::SetNotificationPending: Failed to modify channel events: %s"
           [ArgErrorMessage EINVAL]]
    end =
    match channels_ (endpoint_ s) !! channel_id_ dm with
    | Some _ => []
    | None =>
        [ALOGE
           "DisplayManager::SetNotificationPending: Failed to modify channel events: %s"
           [ArgErrorMessage EINVAL]]
    end) by (by destruct (channels_ (endpoint_ s) !! channel_id_ dm)).
  rewrite Hlogs in Hset2. injection Hset2 as <- <-.
  eexists. split; [exact Hrun2|].
  unfold application_surfaces. simpl.
  rewrite application_surfaces_mark_seen.
  split; [|split].
  - intros item Hin.
    apply list_elem_of_fmap in Hin as (seen & -> & Hin).
    apply list_elem_of_fmap in Hin as (surface & -> & Hin).
    apply list_elem_of_filter in Hin as [Happ _]. simpl.
    unfold mark_seen. by rewrite decide_True.
  - rewrite <- !list_fmap_compose. apply list_fmap_ext.
    intros ? surface _. simpl. apply mark_seen_surface_id.
  - rewrite <- !list_fmap_compose. apply list_fmap_ext.
    intros ? surface _. simpl. unfold GetQueueIds.
    by rewrite mark_seen_queues.
Qed.

End MoreProperties.

Section MoreHandlerProperties.
Context {platform : Platform}.

(** X4: [OnGetSurfaceQueue] always returns and never changes the state;
    when it returns a handle, the registry has an application surface with
    the surface id asked for, that surface has a queue with the queue id
    asked for, the handle is the one created for that queue, and nothing
    was logged; and it logs exactly when the handle creation fails. *)
Theorem OnGetSurfaceQueue_success_sound (message : Message) (sid qid : Z)
    (s : DisplayManagerService) :
  ∃ r log,
    OnGetSurfaceQueue message sid qid s = Returned r s log ∧
    (∀ handle,
       r = OkStatus handle →
       log = [] ∧
       ∃ surface queue,
         surface ∈ surfaces_ (display_service_ s) ∧
         surface_id surface = sid ∧
         surface_type surface = Application ∧
         queue ∈ consumer_queues_ surface ∧
         id queue = qid ∧
         CreateConsumerQueueHandle queue = OkStatus handle) ∧
    (log ≠ [] →
     ∃ surface queue e,
       GetDisplaySurface (display_service_ s) sid = Some surface ∧
       GetQueue surface qid = Some queue ∧
       CreateConsumerQueueHandle queue = ErrorStatus e ∧
       r = ErrorStatus e).
Proof.
  unfold OnGetSurfaceQueue. unfold_handlers.
  destruct (GetDisplaySurface _ _) as [surface|] eqn:Hsurface;
    [|eexists _, _; split; [reflexivity|]; split; [intros ? [=]|done]].
  destruct (GetDisplaySurface_Some _ _ _ Hsurface) as [Hin Hid].
  destruct (bool_decide (surface_type surface = Application)) eqn:Happ; simpl;
    [|eexists _, _; split; [reflexivity|]; split; [intros ? [=]|done]].
  apply bool_decide_eq_true in Happ.
  destruct (GetQueue surface qid) as [queue|] eqn:Hqueue;
    [|eexists _, _; split; [reflexivity|]; split; [intros ? [=]|done]].
  destruct (GetQueue_Some _ _ _ Hqueue) as [Hqin Hqid].
  destruct (CreateConsumerQueueHandle queue) as [handle|e] eqn:Hcreate; simpl.
  - eexists _, _. split; [reflexivity|]. split; [|done].
    intros ? [= <-]. split; [done|]. by exists surface, queue.
  - eexists _, _. split; [reflexivity|]. split; [intros ? [=]|].
    intros _. by exists surface, queue, e.
Qed.

(** X5: [OnGetConfigurationData] reads neither the message nor the service
    state: it answers the same in every state, with or without a display
    manager, changes nothing and logs nothing.  When it returns data, the
    type is one of the three enumerators, the property of that type gave a
    non-empty path, and the data is what reading that path gave.  Different
    types never share a property. *)
Theorem OnGetConfigurationData_reads_no_state (config_type : Z) :
  (∃ r, ∀ message s,
     OnGetConfigurationData message config_type s = Returned r s []) ∧
  (∀ message s s' log data,
     OnGetConfigurationData message config_type s =
       Returned (OkStatus data) s' log →
     ∃ property_name errno,
       property_name_of config_type = Some property_name ∧
       (config_type = ConfigFileType.kLensMetrics ∨
        config_type = ConfigFileType.kDeviceMetrics ∨
        config_type = ConfigFileType.kDeviceConfiguration) ∧
       GetProperty property_name "" ≠ "" ∧
       ReadFileToString (GetProperty property_name "") = (true, data, errno)) ∧
  (∀ other property_name,
     property_name_of config_type = Some property_name →
     property_name_of other = Some property_name →
     other = config_type).
Proof.
  split; [|split].
  - unfold OnGetConfigurationData. unfold_handlers.
    destruct (property_name_of config_type) as [name|]; [|by eexists].
    destruct (bool_decide _); [by eexists|].
    destruct (ReadFileToString _) as [[ok data] errno].
    destruct ok; simpl; by eexists.
  - intros message s s' log data.
    unfold OnGetConfigurationData. unfold_handlers.
    destruct (property_name_of config_type) as [name|] eqn:Hname; [|done].
    destruct (bool_decide (GetProperty name "" = "")) eqn:Hempty; [done|].
    apply bool_decide_eq_false in Hempty.
    destruct (ReadFileToString _) as [[ok data'] errno] eqn:Hread.
    destruct ok; simpl; [|done]. intros [= <- _ _].
    exists name, errno. repeat split; try done.
    unfold property_name_of in Hname.
    repeat case_decide; try discriminate; eauto.
  - intros other name. unfold property_name_of.
    repeat case_decide; intros [= <-] [=]; congruence.
Qed.

(** X6: the last call to [SetNotificationsPending] decides.  Whatever the
    state, two calls in a row leave the state that the second call alone
    leaves (so repeating a call changes nothing more), and no call touches
    the data of a channel other than its own. *)
Theorem SetNotificationsPending_last_call_wins (dm : DisplayManager)
    (p1 p2 : bool) (s : DisplayManagerService) :
  final_state ((SetNotificationsPending dm p1 ;;;
                SetNotificationsPending dm p2) s) =
    final_state (SetNotificationsPending dm p2 s) ∧
  (∀ s' cid,
     final_state (SetNotificationsPending dm p1 s) = Some s' →
     cid ≠ channel_id_ dm →
     channels_ (endpoint_ s') !! cid = channels_ (endpoint_ s) !! cid) ∧
  (∀ s',
     final_state (SetNotificationsPending dm p1 s) = Some s' →
     is_Some (channels_ (endpoint_ s) !! channel_id_ dm) →
     NotificationsPending (channel_id_ dm) s' = p1).
Proof.
  split; [|split].
  - unfold bind. rewrite !SetNotificationsPending_outcome. simpl.
    rewrite alter_alter_eq.
    rewrite (alter_ext _ (modify_channel_data (if p2 then 0 else POLLIN)
                            (if p2 then POLLIN else 0)))
      by (intros data _; apply modify_channel_data_last_wins).
    reflexivity.
  - intros s' cid. rewrite SetNotificationsPending_outcome. simpl.
    intros [= <-] Hne. simpl. by rewrite lookup_alter_ne.
  - intros s'. rewrite SetNotificationsPending_outcome. simpl.
    intros [= <-] [data Hopen]. unfold NotificationsPending. simpl.
    rewrite lookup_alter_eq, Hopen. simpl.
    rewrite POLLIN_bit, ModifyEvents_testbit by lia.
    destruct p1; simpl; [by rewrite orb_true_r|].
    by rewrite andb_false_r.
Qed.

(** X7: the notifier is safe in every state.  [OnDisplaySurfaceChange]
    always returns, also before any channel was opened and after the last
    one closed; it never changes the live-session slot or the display
    service, never opens or closes a channel, and the only readiness data
    it can change is that of the live channel. *)
Theorem OnDisplaySurfaceChange_safe (s : DisplayManagerService) :
  ∃ s' log,
    OnDisplaySurfaceChange s = Returned tt s' log ∧
    display_manager_ s' = display_manager_ s ∧
    display_service_ s' = display_service_ s ∧
    dom (channels_ (endpoint_ s')) = dom (channels_ (endpoint_ s)) ∧
    (∀ cid,
       Some cid ≠ channel_id_ <$> display_manager_ s →
       channels_ (endpoint_ s') !! cid = channels_ (endpoint_ s) !! cid).
Proof.
  unfold OnDisplaySurfaceChange. unfold bind, get.
  destruct (display_manager_ s) as [dm|] eqn:Hdm.
  - rewrite SetNotificationsPending_outcome.
    eexists _, _. split; [by rewrite app_nil_l|]. simpl.
    split; [done|]. split; [done|]. split; [apply dom_alter_L|].
    intros cid Hne. rewrite lookup_alter_ne; [done|]. congruence.
  - unfold ret. eexists _, _. split; [reflexivity|]. done.
Qed.

End MoreHandlerProperties.

(** ** Further properties of the event loop *)

Section MoreLoopProperties.
Context {platform : Platform}.

(** Where the object in the slot after an event comes from, in any
    state. *)
Lemma deliver_slot_origin ev s r s' log dm :
  deliver ev s = Some (Returned r s' log) →
  display_manager_ s' = Some dm →
  display_manager_ s = Some dm ∨
  ∃ euid,
    ev = ChannelOpen euid (channel_id_ dm) (this_ dm) ∧
    trusted_user euid = true ∧ display_manager_ s = None.
Proof.
  intros Hstep Hlive'.
  destruct ev as [euid cid a|euid cid|euid cid request|surfaces].
  - destruct (display_manager_ s) as [dm0|] eqn:Hdm.
    + rewrite deliver_open_rejected in Hstep by (left; rewrite Hdm; eauto).
      injection Hstep as _ <- _. left. congruence.
    + destruct (trusted_user euid) eqn:Ht.
      * rewrite deliver_open_accepted in Hstep by done.
        injection Hstep as _ <- _. simpl in Hlive'. injection Hlive' as <-.
        right. by exists euid.
      * rewrite deliver_open_rejected in Hstep by (by right).
        injection Hstep as _ <- _. congruence.
  - destruct (channels_ (endpoint_ s) !! cid) as [data|] eqn:Hopen.
    + rewrite (deliver_close _ _ _ _ Hopen) in Hstep.
      injection Hstep as _ <- _. simpl in Hlive'.
      destruct (decide _); [discriminate|]. by left.
    + destruct (deliver_not_open euid cid s Hopen) as [_ Hno]. congruence.
  - destruct (channels_ (endpoint_ s) !! cid) as [data|] eqn:Hopen.
    + simpl in Hstep. rewrite Hopen in Hstep. unfold bind in Hstep.
      destruct (HandleMessage _ s) as [r' s1 log1|] eqn:Hrun; [|discriminate].
      unfold ret in Hstep. injection Hstep as _ <- _.
      destruct (HandleMessage_frame _ _ _ _ _ Hrun) as (Hslot & _).
      left. congruence.
    + destruct (deliver_not_open euid cid s Hopen) as [Hno _].
      rewrite Hno in Hstep. discriminate.
  - simpl in Hstep. unfold OnDisplaySurfaceChange in Hstep.
    unfold bind at 1 in Hstep. unfold set_surfaces in Hstep.
    unfold bind at 1 in Hstep. unfold bind at 1 in Hstep.
    unfold get at 1 in Hstep. simpl in Hstep.
    destruct (display_manager_ s) as [dm0|] eqn:Hdm.
    + rewrite SetNotificationsPending_outcome in Hstep. simpl in Hstep.
      injection Hstep as _ <- _. simpl in Hlive'. left. congruence.
    + simpl in Hstep. injection Hstep as _ <- _. simpl in Hlive'. congruence.
Qed.

Lemma run_slot_origin evs s0 unseen s unseen' dm :
  run evs (s0, unseen) = Some (s, unseen') →
  display_manager_ s = Some dm →
  display_manager_ s0 = Some dm ∨
  ∃ euid,
    ChannelOpen euid (channel_id_ dm) (this_ dm) ∈ evs ∧
    trusted_user euid = true.
Proof.
  revert s0 unseen. induction evs as [|ev rest IH]; intros s0 unseen.
  - simpl. intros [= <- _] Hlive. by left.
  - rewrite run_cons. cbn [fst snd].
    destruct (deliver ev s0) as [[r s1 log|]|] eqn:Hstep; try discriminate.
    intros Hrun Hlive.
    destruct (IH _ _ Hrun Hlive) as [Hlive1|(euid & Hin & Ht)].
    + destruct (deliver_slot_origin _ _ _ _ _ _ Hstep Hlive1)
        as [Hlive0|(euid & -> & Ht & _)]; [by left|].
      right. exists euid. split; [apply list_elem_of_here | done].
    + right. exists euid. split; [by apply list_elem_of_further | done].
Qed.

(** X8: only a trusted open creates a display manager.  After any run of
    the event loop from the initial state, the object in the live-session
    slot was created by a channel-open event of that run, for the channel
    id and at the address the object holds, sent by root or by a uid that
    [IsTrustedUid] accepts. *)
Theorem live_manager_opened_by_trusted (ds : DisplayService)
    (evs : list Event) (s : DisplayManagerService) (unseen unseen' : bool)
    (dm : DisplayManager) :
  run evs (initial ds, unseen) = Some (s, unseen') →
  display_manager_ s = Some dm →
  ∃ euid,
    ChannelOpen euid (channel_id_ dm) (this_ dm) ∈ evs ∧
    (euid = AID_ROOT ∨ IsTrustedUid euid = true).
Proof.
  intros Hrun Hlive.
  destruct (run_slot_origin _ _ _ _ _ _ Hrun Hlive)
    as [Hinit|(euid & Hin & Ht)]; [discriminate|].
  exists euid. split; [done|]. by apply trusted_user_spec.
Qed.

(** X9: a closed session leaves nothing behind.  In every reachable state
    the close of an open channel puts the service back into its initial
    state over the current display service; a reachable state without
    display manager is that initial state; and a notification can only be
    pending on the channel of the live display manager. *)
Theorem close_resets_service (s : DisplayManagerService) :
  reachable s →
  (display_manager_ s = None → s = initial (display_service_ s)) ∧
  (∀ euid cid data,
     channels_ (endpoint_ s) !! cid = Some data →
     deliver (ChannelClose euid cid) s =
       Some (Returned Closed (initial (display_service_ s)) [])) ∧
  (∀ cid,
     NotificationsPending cid s = true →
     channel_id_ <$> display_manager_ s = Some cid).
Proof.
  intros Hreach. pose proof (reachable_single_session s Hreach) as Hinv.
  split; [|split].
  - intros Hnone. unfold single_session in Hinv. rewrite Hnone in Hinv.
    destruct s as [slot ds [channels]]. simpl in *. by subst.
  - intros euid cid data Hopen.
    rewrite (deliver_close _ _ _ _ Hopen).
    destruct (single_session_lookup _ _ _ Hinv Hopen)
      as (dm & Hlive & -> & Hstate & Hch).
    rewrite decide_True by congruence.
    by rewrite Hch, delete_singleton_eq.
  - intros cid. unfold NotificationsPending.
    destruct (channels_ (endpoint_ s) !! cid) as [data|] eqn:Hopen; [|done].
    destruct (single_session_lookup _ _ _ Hinv Hopen)
      as (dm & Hlive & -> & _).
    intros _. by rewrite Hlive.
Qed.

(** X10: what GetSurfaceState advertises, GetSurfaceQueue resolves.  In a
    registry with one surface per id, for every snapshot a GetSurfaceState
    call returned and every queue id the snapshot lists, a following
    GetSurfaceQueue for that surface id and queue id gets past all its
    argument checks: its result is the status of the handle creation for a
    queue with that id. *)
Theorem advertised_queues_resolve (m1 m2 : Message)
    (s s' : DisplayManagerService) (items : list SurfaceState)
    (log : list LogLine) :
  unique_surface_ids (display_service_ s) →
  OnGetSurfaceState m1 s = Returned (OkStatus items) s' log →
  ∀ item qid,
    item ∈ items →
    qid ∈ st_queue_ids item →
    ∃ queue log',
      id queue = qid ∧
      OnGetSurfaceQueue m2 (st_surface_id item) qid s' =
        Returned (CreateConsumerQueueHandle queue) s' log'.
Proof.
  intros Hunique Hrun item qid Hitem Hqid.
  destruct (display_manager_ s) as [dm|] eqn:Hdm;
    [|by rewrite OnGetSurfaceState_null in Hrun].
  destruct (OnGetSurfaceState_returns m1 s dm Hdm) as (s1 & log1 & Hrun1 & Hset).
  rewrite Hrun in Hrun1. injection Hrun1 as -> <- <-.
  rewrite SetNotificationsPending_outcome in Hset. simpl in Hset.
  injection Hset as <- _.
  apply list_elem_of_fmap in Hitem as (surface & -> & Hin).
  apply list_elem_of_filter in Hin as [Happ Hin]. simpl in Hqid.
  apply list_elem_of_fmap in Hqid as (queue0 & -> & Hqin).
  destruct (GetQueue_member surface queue0 Hqin) as (queue & Hfound & Hid).
  exists queue.
  unfold OnGetSurfaceQueue. unfold bind at 1. unfold get at 1.
  cbn [display_service_ snapshot st_surface_id].
  assert (Hsurface :
    GetDisplaySurface
      (mkDisplayService (mark_seen <$> surfaces_ (display_service_ s))
         (named_buffers_ (display_service_ s)))
      (surface_id surface) = Some (mark_seen surface)).
  { unfold GetDisplaySurface. cbn [surfaces_].
    rewrite <- (mark_seen_surface_id surface).
    apply find_unique_surface.
    - unfold unique_surface_ids in Hunique.
      rewrite <- list_fmap_compose.
      rewrite (list_fmap_ext (surface_id ∘ mark_seen) surface_id); [done|].
      intros ? x _. apply mark_seen_surface_id.
    - by apply list_elem_of_fmap_2. }
  rewrite Hsurface.
  rewrite mark_seen_surface_type, bool_decide_eq_true_2 by done.
  cbn [negb].
  assert (Hqueue : GetQueue (mark_seen surface) (id queue0) = Some queue)
    by (unfold GetQueue in *; by rewrite mark_seen_queues).
  rewrite Hqueue.
  unfold bind, ALOGE_IF, log_error, ret.
  destruct (negb (is_ok (CreateConsumerQueueHandle queue)));
    eexists; (split; [exact Hid | reflexivity]).
Qed.

End MoreLoopProperties.

(** ** The further properties on the sample platform *)

Lemma HandleMessage_keeps_session_witness :
  display_manager_ sample_seen = display_manager_ sample_notified.
Proof.
  destruct (proj2 (HandleMessage_keeps_session (platform := sample_platform)
                     sample_poll sample_notified)
              (ReplySurfaceState
                 (OkStatus
                    [mkSurfaceState 1 100 10001 [(1, 1)] 3 [5; 6];
                     mkSurfaceState 3 100 10001 [(1, 1)] 3 [5; 6]]))
              sample_seen [] eq_refl) as (Hslot & _).
  exact Hslot.
Defined.

Lemma channel_open_close_round_trip_witness :
  ∃ s1,
    deliver (platform := sample_platform) (ChannelOpen 1000 7 4096)
      (initial sample_display_service) =
      Some (Returned (Opened (Some (mkDisplayManager 4096 7)) None) s1 []) ∧
    display_manager_ s1 = Some (mkDisplayManager 4096 7) ∧
    deliver (platform := sample_platform) (ChannelClose 5000 7) s1 =
      Some (Returned Closed (initial sample_display_service) []).
Proof.
  exact (channel_open_close_round_trip (platform := sample_platform)
           (initial sample_display_service) 1000 5000 7 4096
           eq_refl eq_refl eq_refl).
Defined.

Lemma OnGetSurfaceState_second_poll_witness :
  ∃ items',
    OnGetSurfaceState sample_poll sample_seen =
      Returned (OkStatus items') sample_seen [] ∧
    (∀ item, item ∈ items' → st_update_flags item = 0) ∧
    st_surface_id <$> items' = [1; 3] ∧
    st_queue_ids <$> items' = [[5; 6]; [5; 6]].
Proof.
  exact (OnGetSurfaceState_second_poll sample_poll sample_poll
           sample_notified sample_seen
           (OkStatus
              [mkSurfaceState 1 100 10001 [(1, 1)] 3 [5; 6];
               mkSurfaceState 3 100 10001 [(1, 1)] 3 [5; 6]])
           [] eq_refl).
Defined.

Lemma OnGetSurfaceQueue_success_sound_witness :
  ∃ r log,
    OnGetSurfaceQueue (platform := sample_platform) sample_poll 2 5 sample_live =
      Returned r sample_live log ∧
    ∀ handle, r = OkStatus handle → log = [].
Proof.
  destruct (OnGetSurfaceQueue_success_sound (platform := sample_platform)
              sample_poll 2 5 sample_live) as (r & log & Hrun & Hsound & _).
  exists r, log. split; [exact Hrun|].
  intros handle Hok. exact (proj1 (Hsound handle Hok)).
Defined.

Lemma OnGetConfigurationData_reads_no_state_witness :
  ∃ property_name errno,
    property_name_of ConfigFileType.kDeviceMetrics = Some property_name ∧
    ReadFileToString (Platform := sample_platform)
      (GetProperty (Platform := sample_platform) property_name "") =
      (true, "blob", errno).
Proof.
  destruct (proj1 (proj2 (OnGetConfigurationData_reads_no_state
                            (platform := sample_platform)
                            ConfigFileType.kDeviceMetrics))
              sample_poll sample_live sample_live [] "blob" eq_refl)
    as (name & errno & Hname & _ & _ & Hread).
  exists name, errno. split; [exact Hname | exact Hread].
Defined.

Lemma SetNotificationsPending_last_call_wins_witness :
  NotificationsPending 7 sample_notified = true.
Proof.
  apply (proj2 (proj2 (SetNotificationsPending_last_call_wins
                         (mkDisplayManager 4096 7) true false sample_live))
           sample_notified).
  - vm_compute. reflexivity.
  - exists (mkChannelData 0 (Some (mkDisplayManager 4096 7))). reflexivity.
Defined.

Lemma OnDisplaySurfaceChange_safe_witness :
  ∃ s' log,
    OnDisplaySurfaceChange sample_writable = Returned tt s' log ∧
    channels_ (endpoint_ s') !! 8 = channels_ (endpoint_ sample_writable) !! 8.
Proof.
  destruct (OnDisplaySurfaceChange_safe sample_writable)
    as (s' & log & Hrun & _ & _ & _ & Hother).
  exists s', log. split; [exact Hrun|].
  apply Hother. discriminate.
Defined.

Lemma live_manager_opened_by_trusted_witness :
  ∃ euid,
    ChannelOpen euid 7 4096 ∈
      [ChannelOpen 5000 6 8192; ChannelOpen 1000 7 4096;
       SurfaceChange (surfaces_ sample_display_service)] ∧
    (euid = AID_ROOT ∨ IsTrustedUid (Platform := sample_platform) euid = true).
Proof.
  apply (live_manager_opened_by_trusted (platform := sample_platform)
           sample_display_service
           [ChannelOpen 5000 6 8192; ChannelOpen 1000 7 4096;
            SurfaceChange (surfaces_ sample_display_service)]
           sample_notified false true (mkDisplayManager 4096 7)).
  - vm_compute. reflexivity.
  - reflexivity.
Defined.

Lemma close_resets_service_witness :
  deliver (platform := sample_platform) (ChannelClose 5000 7) sample_live =
    Some (Returned Closed (initial sample_display_service) []).
Proof.
  exact (proj1 (proj2 (close_resets_service (platform := sample_platform)
                         sample_live sample_live_reachable))
           5000 7 (mkChannelData 0 (Some (mkDisplayManager 4096 7))) eq_refl).
Defined.

Lemma advertised_queues_resolve_witness :
  ∃ queue log',
    id queue = 6 ∧
    OnGetSurfaceQueue (platform := sample_platform) sample_poll 3 6 sample_seen =
      Returned (CreateConsumerQueueHandle (Platform := sample_platform) queue)
        sample_seen log'.
Proof.
  refine (advertised_queues_resolve (platform := sample_platform)
           sample_poll sample_poll sample_notified sample_seen
           [mkSurfaceState 1 100 10001 [(1, 1)] 3 [5; 6];
            mkSurfaceState 3 100 10001 [(1, 1)] 3 [5; 6]] [] _ _
           (mkSurfaceState 3 100 10001 [(1, 1)] 3 [5; 6]) 6 _ _).
  - unfold unique_surface_ids. simpl.
    repeat (apply NoDup_cons; split; [intros Hin; by repeat
              (apply elem_of_cons in Hin as [Hin|Hin]; [discriminate Hin|]);
              apply elem_of_nil in Hin|]).
    apply NoDup_nil_2.
  - reflexivity.
  - apply list_elem_of_further, list_elem_of_here.
  - apply list_elem_of_further, list_elem_of_here.
Defined.
